(** * Byte-addressable storage over the nRF52 flash: a shallow embedding

    The embedded program is the [NRF52FlashStorage] class, in its two
    variants:
    - [FsBackend]: src/storage/NRF52FlashStorage.cpp, on the [fs_*] API;
    - [NrfFstorageBackend]: src/unnamed/part_000, on the [nrf_fstorage_*] API.

    Machine integers are [Z] with the wrap-around written out, stack buffers
    are lists whose out-of-range accesses are undefined behaviour, and the
    busy-wait on the completion flag is a fuelled loop. *)

From Stdlib Require Import ZArith List Bool Lia.
Import ListNotations.
Local Open Scope Z_scope.

(** ** Machine integers *)

Definition uint8_t (z : Z) : Z := z mod 2 ^ 8.
Definition uint16_t (z : Z) : Z := z mod 2 ^ 16.
Definition uint32_t (z : Z) : Z := z mod 2 ^ 32.

Definition is_uint16 (z : Z) : Prop := 0 <= z < 2 ^ 16.
Definition is_uint32 (z : Z) : Prop := 0 <= z < 2 ^ 32.

(** ** The aligned request

    The first lines of [readData] and of [writeData], the same text in both
    source files:
<<
    uint8_t preLength = (uint8_t) (p_location % 4);
    uint32_t locationReal = p_location - preLength;
    uint16_t lengthReal = (uint16_t) (length8 + preLength);
    if (lengthReal % 4) { lengthReal += 4 - (lengthReal % 4); }
    uint16_t length32 = lengthReal >> 2;
>> *)

Definition preLength (p_location : Z) : Z := uint8_t (p_location mod 4).

Definition locationReal (p_location : Z) : Z :=
  uint32_t (p_location - preLength p_location).

Definition lengthReal (p_location length8 : Z) : Z :=
  let lengthReal := uint16_t (length8 + preLength p_location) in
  if lengthReal mod 4 =? 0 then lengthReal
  else uint16_t (lengthReal + (4 - lengthReal mod 4)).

Definition length32 (p_location length8 : Z) : Z :=
  Z.shiftr (lengthReal p_location length8) 2.

(** The aligned request in the words of the specification (AlignmentCodec):
    unbounded arithmetic, [byteSpan] the next multiple of 4. *)

Definition round_up_4 (n : Z) : Z := 4 * ((n + 3) / 4).

Definition spec_preSkip (offset : Z) : Z := offset mod 4.
Definition spec_wordAddress (offset : Z) : Z := offset - spec_preSkip offset.
Definition spec_byteSpan (offset length : Z) : Z :=
  round_up_4 (length + spec_preSkip offset).
Definition spec_wordCount (offset length : Z) : Z := spec_byteSpan offset length / 4.

(** ** Outcomes of a call

    A call returns, or runs into undefined behaviour (an access outside a
    stack buffer, or a read of a buffer that was never filled), or is still
    polling the completion flag when the fuel of the busy-wait is spent. *)

Inductive outcome (A : Type) : Type :=
| Returns (a : A)
| Undefined
| Spinning.

Arguments Returns {A} a.
Arguments Undefined {A}.
Arguments Spinning {A}.

Definition bind {A B : Type} (m : outcome A) (k : A -> outcome B) : outcome B :=
  match m with
  | Returns a => k a
  | Undefined => Undefined
  | Spinning => Spinning
  end.

Notation "x <- m ;; k" := (bind m (fun x => k))
  (at level 61, m at next level, right associativity).

(** ** Stack buffers *)

(** [buf[i]] read. *)
Definition load (buf : list Z) (i : Z) : outcome Z :=
  if i <? 0 then Undefined
  else match nth_error buf (Z.to_nat i) with
       | Some b => Returns b
       | None => Undefined
       end.

(** [l] with cell [i] replaced, for [i] inside the list. *)
Fixpoint update (l : list Z) (i : nat) (v : Z) : list Z :=
  match l, i with
  | [], _ => []
  | _ :: t, O => v :: t
  | h :: t, S i' => h :: update t i' v
  end.

(** [buf[i] = v]. *)
Definition store (buf : list Z) (i : Z) (v : Z) : outcome (list Z) :=
  if (0 <=? i) && (i <? Z.of_nat (length buf))
  then Returns (update buf (Z.to_nat i) v)
  else Undefined.

(** ** Bytes and words

    [conv8to32] and [conv32to8] are members of the base class [FlashStorage],
    whose source file is not part of the sources at hand. *)

Definition byte_of_word (w k : Z) : Z := Z.land (Z.shiftr w (8 * k)) 255.

Definition word_bytes (w : Z) : list Z :=
  [byte_of_word w 0; byte_of_word w 1; byte_of_word w 2; byte_of_word w 3].

Definition word_of_bytes (b0 b1 b2 b3 : Z) : Z :=
  Z.lor b0 (Z.lor (Z.shiftl b1 8) (Z.lor (Z.shiftl b2 16) (Z.shiftl b3 24))).

Fixpoint pack_words (n : nat) (d8 : list Z) : list Z :=
  match n with
  | O => []
  | S n' =>
      word_of_bytes (nth 0 d8 0) (nth 1 d8 0) (nth 2 d8 0) (nth 3 d8 0)
        :: pack_words n' (skipn 4 d8)
  end.

(** Modelled from the spec: [FlashStorage::conv8to32], absent from the
    sources; native little-endian packing of 4 bytes per 32-bit word, byte 0
    in the least-significant position.  The specification names no failure
    of the conversion, so the returned flag is [true]; the second component
    is the content of the output array [d32]. *)
Definition conv8to32 (d8 : list Z) (length8 : Z) : bool * list Z :=
  (true, pack_words (Z.to_nat (length8 / 4)) d8).

(** Modelled from the spec: [FlashStorage::conv32to8], absent from the
    sources; the inverse unpacking, byte 0 of a word first. *)
Definition conv32to8 (d32 : list Z) (length8 : Z) : bool * list Z :=
  (true, firstn (Z.to_nat length8) (flat_map word_bytes d32)).

Definition is_byte (b : Z) : Prop := 0 <= b < 256.

(** ** The loops of [readData] and [writeData] over the stack buffers

    These are the same text in both source files. *)

(** [for (int j = 0; j < length8; j++) buffer[j] = bufferReal[j + preLength];]
    run from [j]; the result is what is written to [buffer]. *)
Fixpoint shift_out (bufferReal : list Z) (preLength : Z) (j : Z) (n : nat)
  : outcome (list Z) :=
  match n with
  | O => Returns []
  | S n' =>
      b <- load bufferReal (j + preLength) ;;
      rest <- shift_out bufferReal preLength (j + 1) n' ;;
      Returns (b :: rest)
  end.

(** [for (int i = preLength; i < preLength + length8; ++i)
       if (bufferReal[i] != 0xFF) return false;]
    run from [i]; [true] when the loop runs to its end. *)
Fixpoint check_empty (bufferReal : list Z) (i : Z) (n : nat) : outcome bool :=
  match n with
  | O => Returns true
  | S n' =>
      b <- load bufferReal i ;;
      if b =? 255 then check_empty bufferReal (i + 1) n' else Returns false
  end.

(** [for (int j = from; j < from + n; j++) bufferReal[j] = 0xFF;] *)
Fixpoint fill_FF (bufferReal : list Z) (j : Z) (n : nat) : outcome (list Z) :=
  match n with
  | O => Returns bufferReal
  | S n' =>
      bufferReal' <- store bufferReal j 255 ;;
      fill_FF bufferReal' (j + 1) n'
  end.

(** [for (int k = 0; k < length8; k++) bufferReal[k + preLength] = buffer[k];]
    run from [k]. *)
Fixpoint shift_in (bufferReal buffer : list Z) (preLength : Z) (k : Z) (n : nat)
  : outcome (list Z) :=
  match n with
  | O => Returns bufferReal
  | S n' =>
      b <- load buffer k ;;
      bufferReal' <- store bufferReal (k + preLength) b ;;
      shift_in bufferReal' buffer preLength (k + 1) n'
  end.

(** The three loops of [writeData] that build the buffer to program: 0xFF
    before the data, the data, 0xFF up to the aligned length. *)
Definition assemble (bufferReal buffer : list Z) (preLength length8 lengthReal : Z)
  : outcome (list Z) :=
  b1 <- fill_FF bufferReal 0 (Z.to_nat preLength) ;;
  b2 <- shift_in b1 buffer preLength 0 (Z.to_nat length8) ;;
  fill_FF b2 (preLength + length8) (Z.to_nat (lengthReal - (preLength + length8))).

(** The buffer [writeData] means to program: 0xFF, the data, 0xFF. *)
Definition padded (pre : nat) (buffer : list Z) (len8 total : nat) : list Z :=
  repeat 255 pre ++ firstn len8 buffer ++ repeat 255 (total - (pre + len8)).

(** The words [writeData] hands to the medium when the 16-bit computation
    of the aligned length does not wrap. *)
Definition write_words (p_location : Z) (buffer : list Z) (length8 : Z) : list Z :=
  pack_words (Z.to_nat (round_up_4 (length8 + p_location mod 4) / 4))
             (padded (Z.to_nat (p_location mod 4)) buffer (Z.to_nat length8)
                     (Z.to_nat (round_up_4 (length8 + p_location mod 4)))).

(** [while (flag == 1) ;] with an empty body: nothing in the loop changes the
    flag, which only the event handler clears.  The loop is followed as it is
    written, one test of the flag per round.  The flags of
    src/unnamed/part_000 are [volatile]; [fs_callback_flag] of
    src/storage/NRF52FlashStorage.cpp is not, so there the model gives what a
    build that re-reads the flag does. *)
Fixpoint busy_wait (fuel : nat) (flag : Z) : outcome unit :=
  if flag =? 1 then
    match fuel with
    | O => Spinning
    | S fuel' => busy_wait fuel' flag
    end
  else Returns tt.

(** ** The flash medium

    The medium driver ([fs_store], [fs_erase], [nrf_fstorage_write],
    [nrf_fstorage_erase]) is vendor code outside the repository.  What a call
    answers and what its completion event carries are inputs of the model
    (the [platform] records below); what an accepted and completed operation
    does to the flash follows the specification. *)

Inductive fs_ret_t : Type :=
| FS_SUCCESS
| FS_ERROR (code : Z).

Definition fs_success (r : fs_ret_t) : bool :=
  match r with FS_SUCCESS => true | FS_ERROR _ => false end.

Inductive ble_error_t : Type :=
| BLE_ERROR_NONE
| BLE_ERROR (code : Z).

(** The operations handed to the medium, in the order of the calls. *)
Inductive request : Type :=
| Store (p_dest : Z) (p_src : list Z) (length_words : Z)
| Erase (p_page_addr : Z) (num_pages : Z).

Module FlashMedium.

(** Flash contents: the 32-bit word behind each word pointer (a byte
    address divided by 4). *)
Definition contents : Type := Z -> Z.

(** Modelled from the spec: the effect of a completed [submit_write], absent
    from the sources; programming can clear bits (1 to 0) and never sets
    them, so each word becomes the conjunction of what it held and what is
    written. *)
Definition program (m : contents) (p_dest : Z) (p_src : list Z) : contents :=
  fun a =>
    if (p_dest <=? a) && (a <? p_dest + Z.of_nat (length p_src))
    then Z.land (m a) (nth (Z.to_nat (a - p_dest)) p_src 0)
    else m a.

(** Modelled from the spec: the effect of a completed [submit_erase], absent
    from the sources; every bit of the erased pages is set (the erased
    state, all-ones), [page_words] being the number of words of a page. *)
Definition erase (m : contents) (page_words p_page_addr num_pages : Z) : contents :=
  fun a =>
    if (p_page_addr <=? a) && (a <? p_page_addr + page_words * num_pages)
    then 4294967295
    else m a.

(** The byte at byte offset [offset] from the word pointer [p_start]. *)
Definition byte_at (m : contents) (p_start offset : Z) : Z :=
  byte_of_word (m (p_start + Z.shiftr offset 2)) (offset mod 4).

(** The [n] bytes from byte offset [offset] on. *)
Definition bytes_at (m : contents) (p_start offset : Z) (n : nat) : list Z :=
  map (fun i => byte_at m p_start (offset + Z.of_nat i)) (seq 0 n).

End FlashMedium.

(** ** src/storage/NRF52FlashStorage.cpp: the [fs_*] backend *)

Module FsBackend.

(** [fs_config]: [p_start_addr] and [p_end_addr] are [const uint32_t *],
    kept as word pointers. *)
Record fs_config_t : Type := {
  p_start_addr : Z;
  p_end_addr : Z;
  num_pages : Z
}.

(** What the platform answers during one call of the class. *)
Record platform : Type := {
  softdevice_handler_isEnabled : bool;
  ble_init : ble_error_t;           (* result of [ble.init] *)
  ble_hasInitialized : bool;        (* [BLE::Instance().hasInitialized()] *)
  fs_store : Z -> Z -> fs_ret_t;    (* answer of [fs_store] for (p_dest, length_words) *)
  fs_erase : Z -> Z -> fs_ret_t;    (* answer of [fs_erase] for (p_page_addr, num_pages) *)
  fs_store_result : fs_ret_t;       (* result carried by the completion event of a store *)
  fs_erase_result : fs_ret_t        (* result carried by the completion event of an erase *)
}.

(** The platform [P] with [ble.init] answering [e] and
    [BLE::Instance().hasInitialized()] answering [h]. *)
Definition with_guard_answers (P : platform) (e : ble_error_t) (h : bool) : platform :=
  {| softdevice_handler_isEnabled := softdevice_handler_isEnabled P;
     ble_init := e;
     ble_hasInitialized := h;
     fs_store := fs_store P;
     fs_erase := fs_erase P;
     fs_store_result := fs_store_result P;
     fs_erase_result := fs_erase_result P |}.

(** The flash, the statics of the file and the member [activatedSdStatus]. *)
Record storage : Type := {
  flash : FlashMedium.contents;
  fs_callback_flag : Z;
  activatedSdStatus : bool;
  sdEventThread : bool;             (* [sdEventThread] and [sdEventQueue] exist *)
  submitted : list request
}.

Definition set_flash (st : storage) (m : FlashMedium.contents) : storage :=
  {| flash := m; fs_callback_flag := fs_callback_flag st;
     activatedSdStatus := activatedSdStatus st;
     sdEventThread := sdEventThread st; submitted := submitted st |}.

Definition set_flag (st : storage) (f : Z) : storage :=
  {| flash := flash st; fs_callback_flag := f;
     activatedSdStatus := activatedSdStatus st;
     sdEventThread := sdEventThread st; submitted := submitted st |}.

Definition set_sd (st : storage) (activated thread : bool) : storage :=
  {| flash := flash st; fs_callback_flag := fs_callback_flag st;
     activatedSdStatus := activated;
     sdEventThread := thread; submitted := submitted st |}.

Definition submit (st : storage) (r : request) : storage :=
  {| flash := flash st; fs_callback_flag := fs_callback_flag st;
     activatedSdStatus := activatedSdStatus st;
     sdEventThread := sdEventThread st; submitted := submitted st ++ [r] |}.

Section Class.

(** The macro [PAGE_SIZE_WORDS] (its header is not in the sources), the
    registered configuration and the platform. *)
Variable PAGE_SIZE_WORDS : Z.
Variable fs_config : fs_config_t.
Variable P : platform.

(** [fs_evt_handler]: only a successful event clears the flag. *)
Definition fs_evt_handler (st : storage) (result : fs_ret_t) : storage :=
  if negb (fs_success result) then st else set_flag st 0.

(** [initBleSd]. *)
Definition initBleSd (st : storage) : ble_error_t * storage :=
  if softdevice_handler_isEnabled P then (BLE_ERROR_NONE, st)
  else (ble_init P, set_sd st true true).

(** [deinitBleSd]. *)
Definition deinitBleSd (st : storage) : storage :=
  if activatedSdStatus st then
    if ble_hasInitialized P then set_sd st false false
    else set_sd st false (sdEventThread st)
  else st.

(** [buf32[i] = *(fs_config.p_start_addr + (locationReal >> 2) + i)] for
    [i] from 0 to [length32 - 1]. *)
Definition read_words (m : FlashMedium.contents) (locationReal : Z) (length32 : nat)
  : list Z :=
  map (fun i => m (p_start_addr fs_config + Z.shiftr locationReal 2 + Z.of_nat i))
      (seq 0 length32).

(** [readData], [buffer] not being NULL: [Returns None] is [return false]
    ([buffer] is left as it was), [Returns (Some bytes)] is [return true]
    with [bytes] written to [buffer[0 .. length8)]. *)
Definition readData (st : storage) (p_location length8 : Z)
  : outcome (option (list Z)) :=
  if length8 =? 0 then Returns None
  else
    let buf32 := read_words (flash st) (locationReal p_location)
                            (Z.to_nat (length32 p_location length8)) in
    let (ok, bufferReal) := conv32to8 buf32 (lengthReal p_location length8) in
    if negb ok then Returns None
    else
      buffer <- shift_out bufferReal (preLength p_location) 0 (Z.to_nat length8) ;;
      Returns (Some buffer).

(** The flash after the medium has worked on an accepted store.  A store
    that completes with a failure leaves a hardware-defined state; no
    returning path of [writeData] observes it. *)
Definition store_done (st : storage) (p_dest : Z) (buf32 : list Z) : storage :=
  if fs_success (fs_store_result P)
  then set_flash st (FlashMedium.program (flash st) p_dest buf32)
  else st.

Definition erase_done (st : storage) (p_page : Z) (numPages : Z) : storage :=
  if fs_success (fs_erase_result P)
  then set_flash st (FlashMedium.erase (flash st) PAGE_SIZE_WORDS p_page numPages)
  else st.

(** [erasePage]. *)
Definition erasePage (fuel : nat) (st : storage) (page numPages : Z)
  : outcome (bool * storage) :=
  let st := snd (initBleSd st) in
  let st := set_flag st 1 in
  let p_page := p_start_addr fs_config + PAGE_SIZE_WORDS * page in
  let ret := fs_erase P p_page numPages in
  let st := submit st (Erase p_page numPages) in
  if negb (fs_success ret) then Returns (false, st)
  else
    let st := fs_evt_handler (erase_done st p_page numPages) (fs_erase_result P) in
    _ <- busy_wait fuel (fs_callback_flag st) ;;
    let st := deinitBleSd st in
    Returns (true, st).

(** [writeData], [buffer] not being NULL; the list [buffer] is what the
    caller's array holds, and a read past its end is undefined. *)
Definition writeData (fuel : nat) (st : storage) (p_location : Z)
           (buffer : list Z) (length8 : Z) : outcome (bool * storage) :=
  if length8 =? 0 then Returns (false, st)
  else
    let preLength := preLength p_location in
    let locationReal := locationReal p_location in
    let lengthReal := lengthReal p_location length8 in
    r <- readData st locationReal lengthReal ;;
    match r with
    | None =>
        (* [bufferReal] was not filled, and the first round of the loop
           below reads [bufferReal[preLength]] *)
        Undefined
    | Some bufferReal =>
        empty <- check_empty bufferReal preLength (Z.to_nat length8) ;;
        if negb empty then Returns (false, st)
        else
          bufferReal <- assemble bufferReal buffer preLength length8 lengthReal ;;
          let length32 := Z.shiftr lengthReal 2 in
          let (ok, buf32) := conv8to32 bufferReal lengthReal in
          if negb ok then Returns (false, st)
          else
            let st := snd (initBleSd st) in
            let st := set_flag st 1 in
            let p_dest := p_start_addr fs_config + Z.shiftr locationReal 2 in
            let ret := fs_store P p_dest length32 in
            let st := submit st (Store p_dest buf32 length32) in
            if negb (fs_success ret) then Returns (false, st)
            else
              let st := fs_evt_handler (store_done st p_dest buf32)
                                       (fs_store_result P) in
              _ <- busy_wait fuel (fs_callback_flag st) ;;
              let st := deinitBleSd st in
              Returns (true, st)
    end.

(** [getStartAddress] and [getEndAddress]: the pointers as byte addresses. *)
Definition getStartAddress : Z := uint32_t (4 * p_start_addr fs_config).
Definition getEndAddress : Z := uint32_t (4 * p_end_addr fs_config).

End Class.

End FsBackend.

(** ** src/unnamed/part_000: the [nrf_fstorage_*] backend

    The static functions [nosd_erase_page] and [nosd_store] of the file are
    called by no member of the class and are not embedded. *)

Module NrfFstorageBackend.

Inductive ret_code_t : Type :=
| NRF_SUCCESS
| NRF_ERROR (code : Z).

Definition nrf_success (r : ret_code_t) : bool :=
  match r with NRF_SUCCESS => true | NRF_ERROR _ => false end.

Inductive nrf_fstorage_evt_id_t : Type :=
| NRF_FSTORAGE_EVT_READ_RESULT
| NRF_FSTORAGE_EVT_WRITE_RESULT
| NRF_FSTORAGE_EVT_ERASE_RESULT.

Record nrf_fstorage_evt_t : Type := {
  result : ret_code_t;
  id : nrf_fstorage_evt_id_t
}.

(** [nrfFstorage]: [start_addr] and [end_addr] are [uint32_t] numbers. *)
Record nrf_fstorage_t : Type := {
  start_addr : Z;
  end_addr : Z
}.

(** What the platform answers during one call of the class. *)
Record platform : Type := {
  nrf_fstorage_write : Z -> Z -> ret_code_t;  (* answer for (dest, len) *)
  nrf_fstorage_erase : Z -> Z -> ret_code_t;  (* answer for (page_addr, len) *)
  write_result : ret_code_t;                  (* result in the event of a write *)
  erase_result : ret_code_t                   (* result in the event of an erase *)
}.

(** The statics of the file.  No function of this file reads the flash,
    and what [nrf_fstorage_write] does to it is outside the sources, so
    only the requests are recorded. *)
Record storage : Type := {
  fs_writeData_callback_flag : Z;
  fs_erasePage_callback_flag : Z;
  submitted : list request
}.

Definition set_write_flag (st : storage) (f : Z) : storage :=
  {| fs_writeData_callback_flag := f;
     fs_erasePage_callback_flag := fs_erasePage_callback_flag st;
     submitted := submitted st |}.

Definition set_erase_flag (st : storage) (f : Z) : storage :=
  {| fs_writeData_callback_flag := fs_writeData_callback_flag st;
     fs_erasePage_callback_flag := f;
     submitted := submitted st |}.

Definition submit (st : storage) (r : request) : storage :=
  {| fs_writeData_callback_flag := fs_writeData_callback_flag st;
     fs_erasePage_callback_flag := fs_erasePage_callback_flag st;
     submitted := submitted st ++ [r] |}.

Section Class.

Variable PAGE_SIZE_WORDS : Z.
Variable nrfFstorage : nrf_fstorage_t.
Variable P : platform.

(** [fstorage_evt_handler]. *)
Definition fstorage_evt_handler (st : storage) (p_evt : nrf_fstorage_evt_t)
  : storage :=
  if negb (nrf_success (result p_evt)) then st
  else
    match id p_evt with
    | NRF_FSTORAGE_EVT_WRITE_RESULT => set_write_flag st 0
    | NRF_FSTORAGE_EVT_ERASE_RESULT => set_erase_flag st 0
    | NRF_FSTORAGE_EVT_READ_RESULT => st
    end.

(** [buf32[i] = (nrfFstorage.start_addr + (locationReal >> 2) + i)] for
    [i] from 0 to [length32 - 1]: the number itself, in 32 bits; nothing
    is read from the flash. *)
Definition read_words (locationReal : Z) (length32 : nat) : list Z :=
  map (fun i => uint32_t (start_addr nrfFstorage + Z.shiftr locationReal 2
                          + Z.of_nat i))
      (seq 0 length32).

(** [readData], results as in [FsBackend.readData]. *)
Definition readData (p_location length8 : Z) : outcome (option (list Z)) :=
  if length8 =? 0 then Returns None
  else
    let buf32 := read_words (locationReal p_location)
                            (Z.to_nat (length32 p_location length8)) in
    let (ok, bufferReal) := conv32to8 buf32 (lengthReal p_location length8) in
    if negb ok then Returns None
    else
      buffer <- shift_out bufferReal (preLength p_location) 0 (Z.to_nat length8) ;;
      Returns (Some buffer).

(** [erasePage]. *)
Definition erasePage (fuel : nat) (st : storage) (page numPages : Z)
  : outcome (bool * storage) :=
  let st := set_erase_flag st 1 in
  let page_addr := uint32_t (start_addr nrfFstorage + PAGE_SIZE_WORDS * page) in
  let ret := nrf_fstorage_erase P page_addr numPages in
  let st := submit st (Erase page_addr numPages) in
  if negb (nrf_success ret) then Returns (false, st)
  else
    let st := fstorage_evt_handler st
                {| result := erase_result P; id := NRF_FSTORAGE_EVT_ERASE_RESULT |} in
    _ <- busy_wait fuel (fs_erasePage_callback_flag st) ;;
    Returns (true, st).

(** [writeData]. *)
Definition writeData (fuel : nat) (st : storage) (p_location : Z)
           (buffer : list Z) (length8 : Z) : outcome (bool * storage) :=
  if length8 =? 0 then Returns (false, st)
  else
    let preLength := preLength p_location in
    let locationReal := locationReal p_location in
    let lengthReal := lengthReal p_location length8 in
    r <- readData locationReal lengthReal ;;
    match r with
    | None => Undefined
    | Some bufferReal =>
        empty <- check_empty bufferReal preLength (Z.to_nat length8) ;;
        if negb empty then Returns (false, st)
        else
          bufferReal <- assemble bufferReal buffer preLength length8 lengthReal ;;
          let length32 := Z.shiftr lengthReal 2 in
          let (ok, buf32) := conv8to32 bufferReal lengthReal in
          if negb ok then Returns (false, st)
          else
            let st := set_write_flag st 1 in
            let dest := uint32_t (start_addr nrfFstorage + Z.shiftr locationReal 2) in
            let ret := nrf_fstorage_write P dest length32 in
            let st := submit st (Store dest buf32 length32) in
            if negb (nrf_success ret) then Returns (false, st)
            else
              let st := fstorage_evt_handler st
                          {| result := write_result P;
                             id := NRF_FSTORAGE_EVT_WRITE_RESULT |} in
              _ <- busy_wait fuel (fs_writeData_callback_flag st) ;;
              Returns (true, st)
    end.

Definition getStartAddress : Z := start_addr nrfFstorage.
Definition getEndAddress : Z := end_addr nrfFstorage.

End Class.

End NrfFstorageBackend.

(** ** What a caller sees of a call: the returned flag and the requests
    handed to the medium so far. *)

Definition fs_seen (o : outcome (bool * FsBackend.storage))
  : outcome (bool * list request) :=
  r <- o ;; Returns (fst r, FsBackend.submitted (snd r)).

Definition nrf_seen (o : outcome (bool * NrfFstorageBackend.storage))
  : outcome (bool * list request) :=
  r <- o ;; Returns (fst r, NrfFstorageBackend.submitted (snd r)).

(** What a call leaves behind apart from the event thread and queue: the
    returned flag, the flash, the requests handed to the medium, the
    completion flag and [activatedSdStatus]. *)
Definition fs_effect (o : outcome (bool * FsBackend.storage))
  : outcome (bool * FlashMedium.contents * list request * Z * bool) :=
  r <- o ;;
  Returns (fst r, FsBackend.flash (snd r), FsBackend.submitted (snd r),
           FsBackend.fs_callback_flag (snd r), FsBackend.activatedSdStatus (snd r)).

(** ** A sample configuration

    32 pages of 1024 words from byte address 0x60000 on, and a medium that
    checks a request against the configured bounds the way [nosd_store] and
    [nosd_erase_page] of src/unnamed/part_000 mean to, then accepts it. *)

Module Sample.

Definition PAGE_SIZE_WORDS : Z := 1024.

Definition erased : FlashMedium.contents := fun _ => 4294967295.

Definition fs_config : FsBackend.fs_config_t :=
  {| FsBackend.p_start_addr := 98304;
     FsBackend.p_end_addr := 98304 + 32 * 1024;
     FsBackend.num_pages := 32 |}.

Definition fs_platform (ble : ble_error_t) (store_result erase_result : fs_ret_t)
  : FsBackend.platform :=
  {| FsBackend.softdevice_handler_isEnabled := false;
     FsBackend.ble_init := ble;
     FsBackend.ble_hasInitialized :=
       match ble with BLE_ERROR_NONE => true | BLE_ERROR _ => false end;
     FsBackend.fs_store := fun p_dest length_words =>
       if (p_dest <? FsBackend.p_start_addr fs_config)
          || (FsBackend.p_end_addr fs_config <? p_dest + length_words)
       then FS_ERROR 6
       else if length_words =? 0 then FS_ERROR 5 else FS_SUCCESS;
     FsBackend.fs_erase := fun p_page_addr num_pages =>
       if (p_page_addr <? FsBackend.p_start_addr fs_config)
          || (FsBackend.p_end_addr fs_config <? p_page_addr + PAGE_SIZE_WORDS * num_pages)
       then FS_ERROR 6
       else if num_pages =? 0 then FS_ERROR 5 else FS_SUCCESS;
     FsBackend.fs_store_result := store_result;
     FsBackend.fs_erase_result := erase_result |}.

Definition fs_storage (m : FlashMedium.contents) : FsBackend.storage :=
  {| FsBackend.flash := m;
     FsBackend.fs_callback_flag := 0;
     FsBackend.activatedSdStatus := false;
     FsBackend.sdEventThread := false;
     FsBackend.submitted := [] |}.

(** [nrfFstorage] as part_000 initialises it: [.start_addr = 0],
    [.end_addr = PAGE_SIZE_WORDS]. *)
Definition nrfFstorage : NrfFstorageBackend.nrf_fstorage_t :=
  {| NrfFstorageBackend.start_addr := 0;
     NrfFstorageBackend.end_addr := PAGE_SIZE_WORDS |}.

Definition nrf_platform (write_result erase_result : NrfFstorageBackend.ret_code_t)
  : NrfFstorageBackend.platform :=
  {| NrfFstorageBackend.nrf_fstorage_write := fun _ _ => NrfFstorageBackend.NRF_SUCCESS;
     NrfFstorageBackend.nrf_fstorage_erase := fun _ _ => NrfFstorageBackend.NRF_SUCCESS;
     NrfFstorageBackend.write_result := write_result;
     NrfFstorageBackend.erase_result := erase_result |}.

Definition nrf_storage : NrfFstorageBackend.storage :=
  {| NrfFstorageBackend.fs_writeData_callback_flag := 0;
     NrfFstorageBackend.fs_erasePage_callback_flag := 0;
     NrfFstorageBackend.submitted := [] |}.

(** The state a call leaves, the given one when the call does not return. *)
Definition fs_after (st : FsBackend.storage) (o : outcome (bool * FsBackend.storage))
  : FsBackend.storage :=
  match o with
  | Returns (_, st') => st'
  | _ => st
  end.

Definition healthy : FsBackend.platform := fs_platform BLE_ERROR_NONE FS_SUCCESS FS_SUCCESS.

(** The last byte of page 0 written with 0x5A, and page 0 erased after it
    (the steps of [TestStorageErasePages]). *)
Definition written : FsBackend.storage :=
  fs_after (fs_storage erased)
           (FsBackend.writeData fs_config healthy 0 (fs_storage erased) 4095 [90] 1).

Definition erased_again : FsBackend.storage :=
  fs_after written
           (FsBackend.erasePage PAGE_SIZE_WORDS fs_config healthy 0 written 0 1).

(** The 16 bytes of the unit tests. *)
Definition writeData16 : list Z :=
  [161; 178; 195; 212; 229; 246; 7; 24; 41; 58; 75; 92; 109; 126; 143; 144].

End Sample.

(** ** Further sample states *)

Module Scenario.

(** A write of one byte at the first offset past the end of the sample
    medium, which the medium refuses (the step of
    [TestStorageWriteAboveEndAddress]). *)
Definition refused_at_end : FsBackend.storage :=
  Sample.fs_after (Sample.fs_storage Sample.erased)
    (FsBackend.writeData Sample.fs_config Sample.healthy 0
       (Sample.fs_storage Sample.erased) (32 * 4096) [234] 1).

(** The sample medium with completion events that carry a failure. *)
Definition failing : FsBackend.platform :=
  Sample.fs_platform BLE_ERROR_NONE (FS_ERROR 8) (FS_ERROR 8).


(** The sample medium with [ble.init] failing and BLE not initialised. *)
Definition guard_failing : FsBackend.platform :=
  Sample.fs_platform (BLE_ERROR 1) FS_SUCCESS FS_SUCCESS.

End Scenario.

(** ** Proof steps for the range conditions of concrete calls *)

Ltac bytes := repeat constructor; unfold is_byte; lia.
Ltac u32 := unfold is_uint32; lia.
Ltac u16 := unfold is_uint16; lia.

(** * Properties *)

(** ** The aligned request *)

Lemma preLength_eq (p : Z) : preLength p = p mod 4.
Proof.
  unfold preLength, uint8_t.
  apply Z.mod_small.
  pose proof (Z.mod_pos_bound p 4 ltac:(lia)). lia.
Qed.

Lemma preLength_range (p : Z) : 0 <= preLength p <= 3.
Proof.
  rewrite preLength_eq. pose proof (Z.mod_pos_bound p 4 ltac:(lia)). lia.
Qed.

Lemma locationReal_eq (p : Z) :
  is_uint32 p -> locationReal p = p - p mod 4.
Proof.
  unfold is_uint32, locationReal, uint32_t. intros Hp.
  rewrite preLength_eq.
  apply Z.mod_small.
  pose proof (Z.mod_pos_bound p 4 ltac:(lia)).
  pose proof (Z.mod_le p 4 ltac:(lia) ltac:(lia)). lia.
Qed.

Lemma locationReal_aligned (p : Z) :
  is_uint32 p -> locationReal p = 4 * (p / 4).
Proof.
  intros Hp. rewrite locationReal_eq by assumption.
  pose proof (Z.div_mod p 4 ltac:(lia)). lia.
Qed.

Lemma round_up_4_bounds (n : Z) :
  n <= round_up_4 n < n + 4 /\ round_up_4 n mod 4 = 0.
Proof.
  unfold round_up_4.
  pose proof (Z.div_mod (n + 3) 4 ltac:(lia)).
  pose proof (Z.mod_pos_bound (n + 3) 4 ltac:(lia)).
  split; [lia|].
  rewrite Z.mul_comm. apply Z.mod_mul. lia.
Qed.

Lemma round_up_4_unique (n m : Z) :
  n <= m < n + 4 -> m mod 4 = 0 -> round_up_4 n = m.
Proof.
  intros Hm H4.
  destruct (round_up_4_bounds n) as [Hb Hr].
  pose proof (Z.div_mod m 4 ltac:(lia)).
  pose proof (Z.div_mod (round_up_4 n) 4 ltac:(lia)).
  lia.
Qed.

(** Without wrap-around the 16-bit computation is the rounding up. *)
Lemma lengthReal_no_wrap (p len : Z) :
  0 <= len -> len + p mod 4 <= 65532 ->
  lengthReal p len = round_up_4 (len + p mod 4).
Proof.
  intros Hlen Hfit.
  pose proof (Z.mod_pos_bound p 4 ltac:(lia)) as Hp.
  unfold lengthReal, uint16_t. rewrite preLength_eq.
  change (2 ^ 16) with 65536.
  rewrite (Z.mod_small (len + p mod 4) 65536) by lia.
  pose proof (Z.mod_pos_bound (len + p mod 4) 4 ltac:(lia)) as Hr.
  pose proof (Z.div_mod (len + p mod 4) 4 ltac:(lia)) as Hd.
  destruct (Z.eqb_spec ((len + p mod 4) mod 4) 0) as [E|E].
  - symmetry. apply round_up_4_unique; lia.
  - rewrite Z.mod_small by lia.
    symmetry. apply round_up_4_unique; [lia|].
    replace (len + p mod 4 + (4 - (len + p mod 4) mod 4))
      with ((1 + (len + p mod 4) / 4) * 4) by lia.
    apply Z.mod_mul. lia.
Qed.

(** With wrap-around it is the rounding up less [2^16]. *)
Lemma lengthReal_wrap (p len : Z) :
  is_uint16 len -> 65535 < round_up_4 (len + p mod 4) ->
  lengthReal p len = round_up_4 (len + p mod 4) - 65536.
Proof.
  unfold is_uint16. intros Hlen Hbig.
  pose proof (Z.mod_pos_bound p 4 ltac:(lia)) as Hp.
  destruct (round_up_4_bounds (len + p mod 4)) as [Hb _].
  unfold lengthReal. rewrite preLength_eq.
  change (2 ^ 16) with 65536 in Hlen.
  assert (Hn : len + p mod 4 <= 65538) by lia.
  generalize dependent (len + p mod 4). intros n Hbig Hb Hn.
  assert (Hcases : n = 65533 \/ n = 65534 \/ n = 65535 \/
                   n = 65536 \/ n = 65537 \/ n = 65538) by lia.
  destruct Hcases as [E|[E|[E|[E|[E|E]]]]]; subst n; reflexivity.
Qed.

(** ** Bytes of a word *)

Lemma testbit_byte_high (b i : Z) : is_byte b -> 8 <= i -> Z.testbit b i = false.
Proof.
  unfold is_byte. intros Hb Hi.
  rewrite <- (Z.mod_small b (2 ^ 8)) by (change (2 ^ 8) with 256; lia).
  apply Z.mod_pow2_bits_high. lia.
Qed.

Lemma testbit_255 (i : Z) : 0 <= i -> Z.testbit 255 i = (i <? 8).
Proof.
  intros Hi. change 255 with (Z.ones 8).
  destruct (Z.ltb_spec i 8).
  - apply Z.ones_spec_low. lia.
  - apply Z.ones_spec_high. lia.
Qed.

Lemma byte_of_word_testbit (w k i : Z) :
  0 <= k -> 0 <= i ->
  Z.testbit (byte_of_word w k) i = Z.testbit w (i + 8 * k) && (i <? 8).
Proof.
  intros Hk Hi. unfold byte_of_word.
  rewrite Z.land_spec, Z.shiftr_spec, testbit_255 by lia. reflexivity.
Qed.

Lemma byte_of_word_is_byte (w k : Z) : 0 <= k -> is_byte (byte_of_word w k).
Proof.
  intros Hk. unfold is_byte, byte_of_word.
  change 255 with (Z.ones 8). rewrite Z.land_ones by lia.
  change 256 with (2 ^ 8). apply Z.mod_pos_bound. lia.
Qed.

Lemma byte_of_word_land (a b k : Z) :
  byte_of_word (Z.land a b) k = Z.land (byte_of_word a k) (byte_of_word b k).
Proof.
  unfold byte_of_word. rewrite Z.shiftr_land.
  apply Z.bits_inj'. intros i Hi.
  rewrite !Z.land_spec. 
  destruct (Z.testbit (Z.shiftr a (8 * k)) i), (Z.testbit (Z.shiftr b (8 * k)) i), (Z.testbit 255 i); reflexivity.
Qed.

Lemma land_255_byte (b : Z) : is_byte b -> Z.land b 255 = b.
Proof.
  unfold is_byte. intros Hb. change 255 with (Z.ones 8).
  rewrite Z.land_ones by lia. apply Z.mod_small. change (2 ^ 8) with 256. lia.
Qed.

Lemma testbit_word_of_bytes (b0 b1 b2 b3 i : Z) :
  0 <= i ->
  Z.testbit (word_of_bytes b0 b1 b2 b3) i =
  Z.testbit b0 i || Z.testbit b1 (i - 8) || Z.testbit b2 (i - 16) || Z.testbit b3 (i - 24).
Proof.
  intros Hi. unfold word_of_bytes.
  rewrite !Z.lor_spec, !Z.shiftl_spec by lia.
  rewrite !orb_assoc. reflexivity.
Qed.

Lemma byte_of_word_of_bytes (b0 b1 b2 b3 k : Z) :
  is_byte b0 -> is_byte b1 -> is_byte b2 -> is_byte b3 ->
  0 <= k < 4 ->
  byte_of_word (word_of_bytes b0 b1 b2 b3) k = nth (Z.to_nat k) [b0; b1; b2; b3] 0.
Proof.
  intros H0 H1 H2 H3 Hk.
  assert (Hc : k = 0 \/ k = 1 \/ k = 2 \/ k = 3) by lia.
  apply Z.bits_inj'. intros i Hi.
  rewrite byte_of_word_testbit, testbit_word_of_bytes by lia.
  destruct (Z.ltb_spec i 8) as [Hlt|Hge].
  - rewrite andb_true_r.
    destruct Hc as [-> | [-> | [-> | ->]]]; cbn [Z.to_nat nth Pos.to_nat Pos.iter_op Nat.add];
      repeat match goal with
      | |- context [Z.testbit ?b ?j] =>
          first [ rewrite (Z.testbit_neg_r b j) by lia
                | rewrite (testbit_byte_high b j) by (assumption || lia) ]
      end; rewrite ?orb_false_r, ?orb_false_l; f_equal; lia.
  - rewrite andb_false_r. symmetry.
    apply testbit_byte_high; [|lia].
    destruct Hc as [-> | [-> | [-> | ->]]]; assumption.
Qed.

(** ** The loops over the stack buffers *)

Lemma bind_returns {A B : Type} (a : A) (k : A -> outcome B) :
  bind (Returns a) k = k a.
Proof. reflexivity. Qed.

Lemma load_inside (buf : list Z) (i : Z) :
  0 <= i -> (Z.to_nat i < length buf)%nat ->
  load buf i = Returns (nth (Z.to_nat i) buf 0).
Proof.
  intros Hi Hlt. unfold load.
  destruct (Z.ltb_spec i 0); [lia|].
  destruct (nth_error buf (Z.to_nat i)) as [b|] eqn:E.
  - f_equal. symmetry. apply nth_error_nth. exact E.
  - apply nth_error_None in E. lia.
Qed.

Lemma load_outside (buf : list Z) (i : Z) :
  (length buf <= Z.to_nat i)%nat -> load buf i = Undefined.
Proof.
  intros Hge. unfold load.
  destruct (Z.ltb_spec i 0); [reflexivity|].
  apply nth_error_None in Hge. rewrite Hge. reflexivity.
Qed.

Lemma update_length (l : list Z) (i : nat) (v : Z) :
  length (update l i v) = length l.
Proof.
  revert i. induction l as [|h t IH]; intros [|i]; cbn; auto.
Qed.

Lemma update_nth (l : list Z) (i k : nat) (v : Z) :
  (k < length l)%nat ->
  nth i (update l k v) 0 = if (i =? k)%nat then v else nth i l 0.
Proof.
  revert i k. induction l as [|h t IH]; intros i k Hk; cbn in Hk; [lia|].
  destruct k as [|k]; destruct i as [|i]; cbn; try reflexivity.
  apply IH. lia.
Qed.

Lemma store_inside (buf : list Z) (i v : Z) :
  0 <= i -> (Z.to_nat i < length buf)%nat ->
  store buf i v = Returns (update buf (Z.to_nat i) v).
Proof.
  intros Hi Hlt. unfold store.
  destruct (Z.leb_spec 0 i); [|lia].
  destruct (Z.ltb_spec i (Z.of_nat (length buf))); [reflexivity|lia].
Qed.

Lemma skipn_nth_cons (l : list Z) (a : nat) :
  (a < length l)%nat -> skipn a l = nth a l 0 :: skipn (S a) l.
Proof.
  revert a. induction l as [|h t IH]; intros a Ha; cbn in Ha; [lia|].
  destruct a as [|a]; [reflexivity|].
  cbn [skipn nth]. rewrite IH by lia. reflexivity.
Qed.

Lemma shift_out_inside (n : nat) (bufferReal : list Z) (pre j : Z) :
  0 <= j + pre ->
  (Z.to_nat (j + pre) + n <= length bufferReal)%nat ->
  shift_out bufferReal pre j n
  = Returns (firstn n (skipn (Z.to_nat (j + pre)) bufferReal)).
Proof.
  revert j. induction n as [|n IH]; intros j Hj Hlen; cbn [shift_out].
  - reflexivity.
  - rewrite load_inside by lia. rewrite bind_returns.
    rewrite IH by lia. rewrite bind_returns.
    rewrite (skipn_nth_cons bufferReal (Z.to_nat (j + pre))) by lia.
    cbn [firstn]. repeat f_equal; lia.
Qed.

Lemma shift_out_length (n : nat) (bufferReal : list Z) (pre j : Z) (out : list Z) :
  shift_out bufferReal pre j n = Returns out -> length out = n.
Proof.
  revert j out. induction n as [|n IH]; intros j out; cbn [shift_out].
  - intros [= <-]. reflexivity.
  - destruct (load bufferReal (j + pre)); cbn [bind]; try discriminate.
    destruct (shift_out bufferReal pre (j + 1) n) eqn:E; cbn [bind]; try discriminate.
    intros [= <-]. cbn. f_equal. eapply IH. exact E.
Qed.

Lemma check_empty_inside (n : nat) (bufferReal : list Z) (i : Z) :
  0 <= i -> (Z.to_nat i + n <= length bufferReal)%nat ->
  check_empty bufferReal i n
  = Returns (forallb (fun b => b =? 255) (firstn n (skipn (Z.to_nat i) bufferReal))).
Proof.
  revert i. induction n as [|n IH]; intros i Hi Hlen; cbn [check_empty].
  - reflexivity.
  - rewrite load_inside by lia. rewrite bind_returns.
    rewrite (skipn_nth_cons bufferReal (Z.to_nat i)) by lia.
    cbn [firstn forallb].
    destruct (nth (Z.to_nat i) bufferReal 0 =? 255); [|reflexivity].
    rewrite IH by lia. cbn [andb]. repeat f_equal; lia.
Qed.

(** The check cannot run to its end past the end of the buffer. *)
Lemma check_empty_overrun (n : nat) (bufferReal : list Z) (i : Z) :
  0 <= i -> (0 < n)%nat -> (length bufferReal < Z.to_nat i + n)%nat ->
  check_empty bufferReal i n <> Returns true.
Proof.
  revert i. induction n as [|n IH]; intros i Hi Hn Hlen; cbn [check_empty].
  - lia.
  - destruct (Nat.ltb_spec (Z.to_nat i) (length bufferReal)) as [Hin|Hout].
    + rewrite load_inside by lia. rewrite bind_returns.
      destruct (nth (Z.to_nat i) bufferReal 0 =? 255); [|discriminate].
      apply IH; lia.
    + rewrite load_outside by lia. discriminate.
Qed.

Lemma fill_FF_inside (n : nat) (bufferReal : list Z) (j : Z) :
  0 <= j -> (Z.to_nat j + n <= length bufferReal)%nat ->
  exists filled,
    fill_FF bufferReal j n = Returns filled /\
    length filled = length bufferReal /\
    forall i, nth i filled 0 =
              if (Z.to_nat j <=? i)%nat && (i <? Z.to_nat j + n)%nat
              then 255 else nth i bufferReal 0.
Proof.
  revert bufferReal j. induction n as [|n IH]; intros bufferReal j Hj Hlen; cbn [fill_FF].
  - exists bufferReal. repeat split. intros i.
    destruct (Nat.leb_spec (Z.to_nat j) i), (Nat.ltb_spec i (Z.to_nat j + 0)); cbn; try reflexivity; lia.
  - rewrite store_inside by lia. rewrite bind_returns.
    destruct (IH (update bufferReal (Z.to_nat j) 255) (j + 1)) as (filled & E & L & N).
    { lia. } { rewrite update_length. lia. }
    exists filled. split; [exact E|]. split; [rewrite L; apply update_length|].
    intros i. rewrite N, update_nth by lia.
    replace (Z.to_nat (j + 1)) with (S (Z.to_nat j)) by lia.
    destruct (Nat.leb_spec (S (Z.to_nat j)) i), (Nat.ltb_spec i (S (Z.to_nat j) + n)),
             (Nat.leb_spec (Z.to_nat j) i), (Nat.ltb_spec i (Z.to_nat j + S n)),
             (Nat.eqb_spec i (Z.to_nat j)); cbn; try reflexivity; lia.
Qed.

Lemma shift_in_inside (n : nat) (bufferReal buffer : list Z) (pre k : Z) :
  0 <= k -> 0 <= pre ->
  (Z.to_nat k + n <= length buffer)%nat ->
  (Z.to_nat (k + pre) + n <= length bufferReal)%nat ->
  exists shifted,
    shift_in bufferReal buffer pre k n = Returns shifted /\
    length shifted = length bufferReal /\
    forall i, nth i shifted 0 =
              if (Z.to_nat (k + pre) <=? i)%nat && (i <? Z.to_nat (k + pre) + n)%nat
              then nth (i - Z.to_nat pre) buffer 0 else nth i bufferReal 0.
Proof.
  revert bufferReal k. induction n as [|n IH]; intros bufferReal k Hk Hpre Hb Hlen; cbn [shift_in].
  - exists bufferReal. repeat split. intros i.
    destruct (Nat.leb_spec (Z.to_nat (k + pre)) i), (Nat.ltb_spec i (Z.to_nat (k + pre) + 0)); cbn; try reflexivity; lia.
  - rewrite load_inside by lia. rewrite bind_returns.
    rewrite store_inside by lia. rewrite bind_returns.
    destruct (IH (update bufferReal (Z.to_nat (k + pre)) (nth (Z.to_nat k) buffer 0)) (k + 1))
      as (shifted & E & L & N).
    { lia. } { lia. } { lia. } { rewrite update_length. lia. }
    exists shifted. split; [exact E|]. split; [rewrite L; apply update_length|].
    intros i. rewrite N, update_nth by lia.
    replace (Z.to_nat (k + 1 + pre)) with (S (Z.to_nat (k + pre))) by lia.
    destruct (Nat.leb_spec (S (Z.to_nat (k + pre))) i), (Nat.ltb_spec i (S (Z.to_nat (k + pre)) + n)),
             (Nat.leb_spec (Z.to_nat (k + pre)) i), (Nat.ltb_spec i (Z.to_nat (k + pre) + S n)),
             (Nat.eqb_spec i (Z.to_nat (k + pre))); cbn; try reflexivity; try lia.
    f_equal. lia.
Qed.

Lemma nth_repeat_255 (n i : nat) :
  nth i (repeat 255 n) 0 = if (i <? n)%nat then 255 else 0.
Proof.
  revert i. induction n as [|n IH]; intros [|i]; cbn; try reflexivity.
  rewrite IH. reflexivity.
Qed.

Lemma padded_length (pre : nat) (buffer : list Z) (len8 total : nat) :
  (len8 <= length buffer)%nat -> (pre + len8 <= total)%nat ->
  length (padded pre buffer len8 total) = total.
Proof.
  intros Hb Ht. unfold padded.
  rewrite !length_app, !repeat_length, length_firstn. lia.
Qed.

Lemma padded_nth (pre : nat) (buffer : list Z) (len8 total i : nat) :
  (len8 <= length buffer)%nat -> (pre + len8 <= total)%nat ->
  nth i (padded pre buffer len8 total) 0 =
  if (i <? pre)%nat then 255
  else if (i <? pre + len8)%nat then nth (i - pre) buffer 0
  else if (i <? total)%nat then 255 else 0.
Proof.
  intros Hb Ht. unfold padded.
  destruct (Nat.ltb_spec i pre) as [H1|H1].
  - rewrite app_nth1 by (rewrite repeat_length; lia).
    rewrite nth_repeat_255. destruct (Nat.ltb_spec i pre); [reflexivity|lia].
  - rewrite app_nth2 by (rewrite repeat_length; lia). rewrite repeat_length.
    destruct (Nat.ltb_spec i (pre + len8)) as [H2|H2].
    + rewrite app_nth1 by (rewrite length_firstn; lia).
      rewrite nth_firstn. destruct (Nat.ltb_spec (i - pre) len8); [reflexivity|lia].
    + rewrite app_nth2 by (rewrite length_firstn; lia).
      rewrite length_firstn, nth_repeat_255.
      replace (Nat.min len8 (length buffer)) with len8 by lia.
      destruct (Nat.ltb_spec (i - pre - len8) (total - (pre + len8))),
               (Nat.ltb_spec i total); try reflexivity; lia.
Qed.

Lemma Forall_firstn (P : Z -> Prop) (n : nat) (l : list Z) :
  Forall P l -> Forall P (firstn n l).
Proof.
  intros H. revert n. induction H as [|x l Hx Hl IH]; intros [|n]; cbn; auto.
Qed.

Lemma padded_is_byte (pre : nat) (buffer : list Z) (len8 total : nat) :
  Forall is_byte buffer -> Forall is_byte (padded pre buffer len8 total).
Proof.
  intros Hb. unfold padded.
  assert (H255 : forall n, Forall is_byte (repeat 255 n)).
  { intros n. apply Forall_forall. intros x Hx. apply repeat_spec in Hx. subst x.
    unfold is_byte. lia. }
  apply Forall_app. split; [apply H255|].
  apply Forall_app. split; [|apply H255].
  apply Forall_firstn. exact Hb.
Qed.

Lemma assemble_inside (bufferReal buffer : list Z) (pre len8 lenR : Z) :
  0 <= pre -> 0 <= len8 ->
  (Z.to_nat len8 <= length buffer)%nat ->
  pre + len8 <= lenR ->
  length bufferReal = Z.to_nat lenR ->
  assemble bufferReal buffer pre len8 lenR
  = Returns (padded (Z.to_nat pre) buffer (Z.to_nat len8) (Z.to_nat lenR)).
Proof.
  intros Hpre Hlen8 Hbuf Hfit HL. unfold assemble.
  destruct (fill_FF_inside (Z.to_nat pre) bufferReal 0) as (b1 & E1 & L1 & N1); [lia|lia|].
  rewrite E1, bind_returns.
  destruct (shift_in_inside (Z.to_nat len8) b1 buffer pre 0) as (b2 & E2 & L2 & N2); [lia|lia|lia|lia|].
  rewrite E2, bind_returns.
  destruct (fill_FF_inside (Z.to_nat (lenR - (pre + len8))) b2 (pre + len8))
    as (b3 & E3 & L3 & N3); [lia|lia|].
  rewrite E3. f_equal.
  apply (nth_ext _ _ 0 0).
  - rewrite padded_length by lia. lia.
  - intros i Hi. rewrite padded_nth by lia.
    rewrite N3, N2, N1.
    replace (Z.to_nat (0 + pre)) with (Z.to_nat pre) by lia.
    replace (Z.to_nat 0) with 0%nat by lia.
    destruct (Nat.leb_spec (Z.to_nat (pre + len8)) i),
             (Nat.ltb_spec i (Z.to_nat (pre + len8) + Z.to_nat (lenR - (pre + len8)))),
             (Nat.leb_spec (Z.to_nat pre) i),
             (Nat.ltb_spec i (Z.to_nat pre + Z.to_nat len8)),
             (Nat.leb_spec 0 i),
             (Nat.ltb_spec i (0 + Z.to_nat pre)),
             (Nat.ltb_spec i (Z.to_nat pre)),
             (Nat.ltb_spec i (Z.to_nat lenR)); cbn; try reflexivity; try lia.
Qed.

Lemma byte_of_word_0 (k : Z) : byte_of_word 0 k = 0.
Proof. unfold byte_of_word. rewrite Z.shiftr_0_l. reflexivity. Qed.

Lemma length_flat_map_word_bytes (ws : list Z) :
  length (flat_map word_bytes ws) = (4 * length ws)%nat.
Proof. induction ws as [|w ws IH]; cbn; [reflexivity|]. rewrite IH. lia. Qed.

Lemma nth_flat_map_word_bytes (ws : list Z) (q r : nat) :
  (r < 4)%nat ->
  nth (4 * q + r) (flat_map word_bytes ws) 0 = byte_of_word (nth q ws 0) (Z.of_nat r).
Proof.
  revert q. induction ws as [|w ws IH]; intros q Hr.
  - cbn [flat_map]. destruct q, (4 * 0 + r)%nat; cbn; rewrite ?byte_of_word_0; 
      try reflexivity; destruct (4 * S q + r)%nat; reflexivity.
  - destruct q as [|q].
    + destruct r as [|[|[|[|r]]]]; try lia; reflexivity.
    + replace (4 * S q + r)%nat with (4 + (4 * q + r))%nat by lia.
      cbn [flat_map nth]. 
      change (word_bytes w ++ flat_map word_bytes ws)
        with (byte_of_word w 0 :: byte_of_word w 1 :: byte_of_word w 2 :: byte_of_word w 3
                :: flat_map word_bytes ws).
      cbn [Nat.add nth]. apply IH. exact Hr.
Qed.

Lemma pack_words_length (n : nat) (d8 : list Z) : length (pack_words n d8) = n.
Proof. revert d8. induction n as [|n IH]; intros d8; cbn; [reflexivity|]. rewrite IH. reflexivity. Qed.

Lemma nth_skipn_4 (d8 : list Z) (i : nat) : nth i (skipn 4 d8) 0 = nth (4 + i) d8 0.
Proof.
  destruct d8 as [|a [|b [|c [|d t]]]]; cbn [skipn Nat.add]; 
    try reflexivity; destruct i; reflexivity.
Qed.

Lemma nth_pack_words (n : nat) (d8 : list Z) (q : nat) :
  (q < n)%nat ->
  nth q (pack_words n d8) 0
  = word_of_bytes (nth (4 * q) d8 0) (nth (4 * q + 1) d8 0)
                  (nth (4 * q + 2) d8 0) (nth (4 * q + 3) d8 0).
Proof.
  revert d8 q. induction n as [|n IH]; intros d8 q Hq; [lia|].
  destruct q as [|q]; cbn [pack_words nth].
  - reflexivity.
  - rewrite IH by lia. rewrite !nth_skipn_4. 
    f_equal; f_equal; lia.
Qed.

(** ** Reading *)

Lemma nth_map_seq (f : nat -> Z) (n i : nat) :
  (i < n)%nat -> nth i (map f (seq 0 n)) 0 = f i.
Proof.
  intros Hi. rewrite (nth_indep _ 0 (f 0%nat)) by (rewrite length_map, length_seq; exact Hi).
  rewrite map_nth, seq_nth by exact Hi. reflexivity.
Qed.

Lemma shiftr_2 (z : Z) : Z.shiftr z 2 = z / 4.
Proof. rewrite Z.shiftr_div_pow2 by lia. reflexivity. Qed.

Lemma bytes_at_length (m : FlashMedium.contents) (s off : Z) (n : nat) :
  length (FlashMedium.bytes_at m s off n) = n.
Proof. unfold FlashMedium.bytes_at. rewrite length_map, length_seq. reflexivity. Qed.

Lemma bytes_at_nth (m : FlashMedium.contents) (s off : Z) (n i : nat) :
  (i < n)%nat ->
  nth i (FlashMedium.bytes_at m s off n) 0 = FlashMedium.byte_at m s (off + Z.of_nat i).
Proof.
  intros Hi. unfold FlashMedium.bytes_at.
  exact (nth_map_seq (fun i => FlashMedium.byte_at m s (off + Z.of_nat i)) n i Hi).
Qed.

Lemma bytes_at_slice (m : FlashMedium.contents) (s off : Z) (N a n : nat) :
  (a + n <= N)%nat ->
  firstn n (skipn a (FlashMedium.bytes_at m s off N))
  = FlashMedium.bytes_at m s (off + Z.of_nat a) n.
Proof.
  intros H. apply (nth_ext _ _ 0 0).
  - rewrite length_firstn, length_skipn, !bytes_at_length. lia.
  - intros i Hi. rewrite length_firstn, length_skipn, bytes_at_length in Hi.
    rewrite nth_firstn, nth_skipn.
    destruct (Nat.ltb_spec i n); [|lia].
    rewrite !bytes_at_nth by lia. f_equal. lia.
Qed.

Section FsRead.
Import FsBackend.
Variable fs_config : fs_config_t.

(** The words [readData] fetches, as bytes, are the flash bytes of the
    aligned span. *)
Lemma read_words_bytes (m : FlashMedium.contents) (q : Z) (n : nat) :
  flat_map word_bytes (read_words fs_config m (4 * q) n)
  = FlashMedium.bytes_at m (p_start_addr fs_config) (4 * q) (4 * n).
Proof.
  apply (nth_ext _ _ 0 0).
  - rewrite length_flat_map_word_bytes, bytes_at_length.
    unfold read_words. rewrite length_map, length_seq. reflexivity.
  - intros i Hi. rewrite length_flat_map_word_bytes in Hi.
    unfold read_words in Hi. rewrite length_map, length_seq in Hi.
    rewrite bytes_at_nth by lia.
    pose proof (Nat.div_mod_eq i 4) as Hdm.
    pose proof (Nat.mod_upper_bound i 4 ltac:(lia)) as Hr.
    rewrite Hdm at 1.
    rewrite nth_flat_map_word_bytes by exact Hr.
    unfold read_words.
    rewrite (nth_map_seq (fun i => m (p_start_addr fs_config + Z.shiftr (4 * q) 2 + Z.of_nat i))
               n (i / 4)) by lia.
    unfold FlashMedium.byte_at. rewrite !shiftr_2.
    replace (4 * q + Z.of_nat i) with (Z.of_nat (i mod 4) + (q + Z.of_nat (i / 4)) * 4) by lia.
    rewrite Z.div_add, Z.mod_add by lia.
    rewrite (Z.div_small (Z.of_nat (i mod 4)) 4), (Z.mod_small (Z.of_nat (i mod 4)) 4) by lia.
    replace (4 * q) with (q * 4) by lia. rewrite Z.div_mul by lia.
    f_equal. f_equal. lia.
Qed.

Lemma readData_inside (st : storage) (off len : Z) :
  is_uint32 off -> 0 < len -> len + off mod 4 <= 65532 ->
  readData fs_config st off len
  = Returns (Some (FlashMedium.bytes_at (flash st) (p_start_addr fs_config) off (Z.to_nat len))).
Proof.
  intros Hoff Hlen Hfit.
  pose proof (Z.mod_pos_bound off 4 ltac:(lia)) as Hpre.
  pose proof (lengthReal_no_wrap off len ltac:(lia) Hfit) as HL.
  destruct (round_up_4_bounds (len + off mod 4)) as [Hb Hm].
  unfold readData.
  destruct (Z.eqb_spec len 0); [lia|].
  unfold conv32to8. cbn [negb].
  unfold length32. rewrite shiftr_2.
  rewrite (locationReal_aligned off Hoff), HL, preLength_eq.
  set (R := round_up_4 (len + off mod 4)) in *.
  rewrite read_words_bytes.
  assert (HR4 : (4 * Z.to_nat (R / 4))%nat = Z.to_nat R).
  { pose proof (Z.div_mod R 4 ltac:(lia)). lia. }
  rewrite HR4.
  rewrite firstn_all2 by (rewrite bytes_at_length; lia).
  rewrite shift_out_inside; [|lia|rewrite bytes_at_length; lia].
  rewrite bind_returns. 
  rewrite bytes_at_slice by lia.
  do 3 f_equal.
  pose proof (Z.div_mod off 4 ltac:(lia)). lia.
Qed.
End FsRead.

(** ** Writing *)

Lemma Forall_is_byte_nth (l : list Z) (i : nat) :
  Forall is_byte l -> is_byte (nth i l 0).
Proof.
  intros H. destruct (Nat.ltb_spec i (length l)) as [Hi|Hi].
  - rewrite Forall_forall in H. apply H. apply nth_In. exact Hi.
  - rewrite nth_overflow by exact Hi. unfold is_byte. lia.
Qed.

Lemma land_byte_255 (b : Z) : is_byte b -> Z.land 255 b = b.
Proof. intros Hb. rewrite Z.land_comm. apply land_255_byte. exact Hb. Qed.

(** A programmed flash, byte by byte: inside the programmed words a byte is
    the conjunction of what it held and the byte written over it. *)
Lemma program_byte_at (m : FlashMedium.contents) (s q : Z) (n : nat)
      (bytes : list Z) (b : Z) :
  Forall is_byte bytes ->
  FlashMedium.byte_at (FlashMedium.program m (s + q) (pack_words n bytes)) s b
  = if (4 * q <=? b) && (b <? 4 * q + 4 * Z.of_nat n)
    then Z.land (FlashMedium.byte_at m s b) (nth (Z.to_nat (b - 4 * q)) bytes 0)
    else FlashMedium.byte_at m s b.
Proof.
  intros Hbytes.
  unfold FlashMedium.byte_at, FlashMedium.program.
  rewrite pack_words_length, shiftr_2.
  pose proof (Z.div_mod b 4 ltac:(lia)) as Hdm.
  pose proof (Z.mod_pos_bound b 4 ltac:(lia)) as Hr.
  destruct (Z.leb_spec (4 * q) b) as [H1|H1];
    destruct (Z.ltb_spec b (4 * q + 4 * Z.of_nat n)) as [H2|H2];
    destruct (Z.leb_spec (s + q) (s + b / 4)) as [H3|H3];
    destruct (Z.ltb_spec (s + b / 4) (s + q + Z.of_nat n)) as [H4|H4];
    cbn [andb]; try reflexivity; try lia.
  rewrite byte_of_word_land. f_equal.
  rewrite nth_pack_words by lia.
  rewrite byte_of_word_of_bytes; try (apply Forall_is_byte_nth; exact Hbytes); [|lia].
  set (j := Z.to_nat (s + b / 4 - (s + q))).
  assert (Hk : b mod 4 = 0 \/ b mod 4 = 1 \/ b mod 4 = 2 \/ b mod 4 = 3) by lia.
  destruct Hk as [E | [E | [E | E]]]; rewrite E;
    [ change (Z.to_nat 0) with 0%nat | change (Z.to_nat 1) with 1%nat
    | change (Z.to_nat 2) with 2%nat | change (Z.to_nat 3) with 3%nat ];
    cbn [nth]; f_equal; subst j; lia.
Qed.

Lemma forallb_bytes_erased (m : FlashMedium.contents) (s off : Z) (n : nat) :
  forallb (fun b => b =? 255) (FlashMedium.bytes_at m s off n) = true <->
  (forall b, off <= b < off + Z.of_nat n -> FlashMedium.byte_at m s b = 255).
Proof.
  rewrite forallb_forall. split.
  - intros H b Hb.
    apply Z.eqb_eq. apply H.
    replace b with (off + Z.of_nat (Z.to_nat (b - off))) by lia.
    rewrite <- (bytes_at_nth m s off n) by lia.
    apply nth_In. rewrite bytes_at_length. lia.
  - intros H x Hx.
    apply (In_nth _ _ 0) in Hx. destruct Hx as (i & Hi & <-).
    rewrite bytes_at_length in Hi. rewrite bytes_at_nth by exact Hi.
    apply Z.eqb_eq. apply H. lia.
Qed.

Section FsWrite.
Import FsBackend.
Variable fs_config : fs_config_t.
Variable P : platform.

(** [writeData] inside the 16-bit range, its loops run. *)
Lemma writeData_inside (fuel : nat) (st : storage) (off : Z) (buffer : list Z) (len8 : Z) :
  is_uint32 off -> 0 < len8 -> len8 + off mod 4 <= 65532 ->
  (Z.to_nat len8 <= length buffer)%nat ->
  writeData fs_config P fuel st off buffer len8
  = if forallb (fun b => b =? 255)
               (FlashMedium.bytes_at (flash st) (p_start_addr fs_config) off (Z.to_nat len8))
    then
      let lenR := round_up_4 (len8 + off mod 4) in
      let buf32 := write_words off buffer len8 in
      let p_dest := p_start_addr fs_config + off / 4 in
      let st1 := submit (set_flag (snd (initBleSd P st)) 1)
                        (Store p_dest buf32 (lenR / 4)) in
      if negb (fs_success (fs_store P p_dest (lenR / 4))) then Returns (false, st1)
      else
        let st2 := fs_evt_handler (store_done P st1 p_dest buf32) (fs_store_result P) in
        _ <- busy_wait fuel (fs_callback_flag st2) ;;
        Returns (true, deinitBleSd P st2)
    else Returns (false, st).
Proof.
  intros Hoff Hlen Hfit Hbuf.
  pose proof (Z.mod_pos_bound off 4 ltac:(lia)) as Hpre.
  pose proof (lengthReal_no_wrap off len8 ltac:(lia) Hfit) as HL.
  destruct (round_up_4_bounds (len8 + off mod 4)) as [Hb Hm].
  pose proof (locationReal_aligned off Hoff) as Hloc.
  pose proof (Z.div_mod off 4 ltac:(lia)) as Hdm.
  unfold writeData.
  destruct (Z.eqb_spec len8 0); [lia|].
  rewrite HL, Hloc, preLength_eq.
  set (R := round_up_4 (len8 + off mod 4)) in *.
  pose proof (Z.div_mod R 4 ltac:(lia)) as HR.
  assert (HRmod : (4 * (off / 4)) mod 4 = 0).
  { rewrite Z.mul_comm. apply Z.mod_mul. lia. }
  rewrite readData_inside; [| unfold is_uint32 in *; lia | lia | lia].
  rewrite bind_returns.
  rewrite check_empty_inside; [| lia | rewrite bytes_at_length; lia].
  rewrite bind_returns.
  rewrite bytes_at_slice by lia.
  replace (4 * (off / 4) + Z.of_nat (Z.to_nat (off mod 4))) with off by lia.
  destruct (forallb _ _); cbn [negb]; [|reflexivity].
  rewrite assemble_inside; [| lia | lia | lia | lia | rewrite bytes_at_length; reflexivity].
  rewrite bind_returns.
  unfold conv8to32. cbn [negb].
  rewrite !shiftr_2.
  replace (4 * (off / 4) / 4) with (off / 4) by (rewrite Z.mul_comm, Z.div_mul; lia).
  reflexivity.
Qed.
End FsWrite.

Lemma busy_wait_spins (fuel : nat) : busy_wait fuel 1 = Spinning.
Proof. induction fuel as [|fuel IH]; cbn; [reflexivity|exact IH]. Qed.

Lemma busy_wait_cleared (fuel : nat) : busy_wait fuel 0 = Returns tt.
Proof. destruct fuel; reflexivity. Qed.

Section FsFacts.
Import FsBackend.
Variable PAGE_SIZE_WORDS : Z.
Variable fs_config : fs_config_t.
Variable P : platform.

Lemma initBleSd_flash (st : storage) :
  flash (snd (initBleSd P st)) = flash st /\
  submitted (snd (initBleSd P st)) = submitted st.
Proof. unfold initBleSd. destruct (softdevice_handler_isEnabled P); split; reflexivity. Qed.

Lemma deinitBleSd_flash (st : storage) :
  flash (deinitBleSd P st) = flash st /\
  submitted (deinitBleSd P st) = submitted st.
Proof.
  unfold deinitBleSd.
  destruct (activatedSdStatus st), (ble_hasInitialized P); split; reflexivity.
Qed.

Lemma readData_length (st : storage) (off len : Z) (out : list Z) :
  readData fs_config st off len = Returns (Some out) -> length out = Z.to_nat len.
Proof.
  unfold readData. destruct (len =? 0); [discriminate|].
  unfold conv32to8. cbn [negb].
  destruct (shift_out _ _ _ _) as [o| |] eqn:E; cbn [bind]; try discriminate.
  intros [= <-]. eapply shift_out_length. exact E.
Qed.

(** Past the 16-bit range the check loop leaves its buffer: [writeData]
    does not return [true]. *)
Lemma writeData_wrap (fuel : nat) (st : storage) (off : Z) (buffer : list Z) (len8 : Z)
      (st' : storage) :
  is_uint16 len8 -> 65532 < len8 + off mod 4 ->
  writeData fs_config P fuel st off buffer len8 <> Returns (true, st').
Proof.
  intros Hlen Hwrap.
  pose proof (Z.mod_pos_bound off 4 ltac:(lia)) as Hpre.
  destruct (round_up_4_bounds (len8 + off mod 4)) as [Hb Hm].
  assert (Hbig : 65535 < round_up_4 (len8 + off mod 4)).
  { pose proof (Z.div_mod (round_up_4 (len8 + off mod 4)) 4 ltac:(lia)). lia. }
  pose proof (lengthReal_wrap off len8 Hlen Hbig) as HL.
  unfold is_uint16 in Hlen. change (2 ^ 16) with 65536 in Hlen.
  unfold writeData.
  destruct (Z.eqb_spec len8 0); [discriminate|].
  destruct (readData fs_config st (locationReal off) (lengthReal off len8))
    as [[bufferReal|]| |] eqn:ER; cbn [bind]; try discriminate.
  apply readData_length in ER.
  pose proof (check_empty_overrun (Z.to_nat len8) bufferReal (preLength off)) as Hover.
  rewrite preLength_eq in *.
  destruct (check_empty bufferReal (off mod 4) (Z.to_nat len8)) as [[|]| |];
    cbn [bind negb]; try discriminate.
  exfalso. apply Hover; [lia|lia| |reflexivity].
  rewrite ER, HL. lia.
Qed.

(** A write inside the 16-bit range on an erased region, accepted and
    completed by the medium. *)
Lemma writeData_succeeds (fuel : nat) (st : storage) (off : Z) (buffer : list Z) (len8 : Z) :
  is_uint32 off -> 0 < len8 -> len8 + off mod 4 <= 65532 ->
  length buffer = Z.to_nat len8 ->
  (forall b, off <= b < off + len8 ->
             FlashMedium.byte_at (flash st) (p_start_addr fs_config) b = 255) ->
  fs_store P (p_start_addr fs_config + off / 4)
           (round_up_4 (len8 + off mod 4) / 4) = FS_SUCCESS ->
  fs_store_result P = FS_SUCCESS ->
  exists st',
    writeData fs_config P fuel st off buffer len8 = Returns (true, st') /\
    flash st' = FlashMedium.program (flash st) (p_start_addr fs_config + off / 4)
                                    (write_words off buffer len8) /\
    submitted st' = submitted st ++
                    [Store (p_start_addr fs_config + off / 4)
                           (write_words off buffer len8)
                           (round_up_4 (len8 + off mod 4) / 4)].
Proof.
  intros Hoff Hlen Hfit Hbuf Herased Haccept Hdone.
  rewrite writeData_inside by (assumption || lia).
  assert (Hall : forallb (fun b => b =? 255)
                   (FlashMedium.bytes_at (flash st) (p_start_addr fs_config) off
                      (Z.to_nat len8)) = true).
  { apply forallb_bytes_erased. intros b Hb. apply Herased. lia. }
  rewrite Hall. cbv zeta. rewrite Haccept. cbn [fs_success negb].
  unfold store_done, fs_evt_handler. rewrite Hdone. cbn [fs_success negb].
  cbn [fs_callback_flag set_flag]. rewrite busy_wait_cleared, bind_returns.
  eexists. split; [reflexivity|].
  match goal with
  | |- context [deinitBleSd P ?x] => destruct (deinitBleSd_flash x) as [Hf Hs]
  end.
  rewrite Hf, Hs. cbn [flash submitted set_flag set_flash submit].
  destruct (initBleSd_flash st) as [Hf0 Hs0]. rewrite Hf0, Hs0.
  split; reflexivity.
Qed.

End FsFacts.

Lemma byte_at_is_byte (m : FlashMedium.contents) (s b : Z) :
  is_byte (FlashMedium.byte_at m s b).
Proof.
  unfold FlashMedium.byte_at. apply byte_of_word_is_byte.
  pose proof (Z.mod_pos_bound b 4 ltac:(lia)). lia.
Qed.

Lemma byte_of_word_ones (k : Z) : 0 <= k < 4 -> byte_of_word 4294967295 k = 255.
Proof.
  intros Hk. assert (Hc : k = 0 \/ k = 1 \/ k = 2 \/ k = 3) by lia.
  destruct Hc as [-> | [-> | [-> | ->]]]; reflexivity.
Qed.

(** The flash after [write_words] were programmed at the aligned address. *)
Lemma write_words_byte_at (m : FlashMedium.contents) (s off : Z) (buffer : list Z)
      (len8 b : Z) :
  0 <= off -> 0 < len8 -> length buffer = Z.to_nat len8 -> Forall is_byte buffer ->
  FlashMedium.byte_at
    (FlashMedium.program m (s + off / 4) (write_words off buffer len8)) s b
  = if (off <=? b) && (b <? off + len8)
    then Z.land (FlashMedium.byte_at m s b) (nth (Z.to_nat (b - off)) buffer 0)
    else FlashMedium.byte_at m s b.
Proof.
  intros Hoff Hlen Hbuf Hbytes.
  pose proof (Z.mod_pos_bound off 4 ltac:(lia)) as Hpre.
  pose proof (Z.div_mod off 4 ltac:(lia)) as Hdm.
  destruct (round_up_4_bounds (len8 + off mod 4)) as [Hb Hm].
  unfold write_words.
  set (R := round_up_4 (len8 + off mod 4)) in *.
  pose proof (Z.div_mod R 4 ltac:(lia)) as HR.
  rewrite program_byte_at by (apply padded_is_byte; exact Hbytes).
  destruct (Z.leb_spec (4 * (off / 4)) b) as [H1|H1];
    destruct (Z.ltb_spec b (4 * (off / 4) + 4 * Z.of_nat (Z.to_nat (R / 4)))) as [H2|H2];
    destruct (Z.leb_spec off b) as [H3|H3];
    destruct (Z.ltb_spec b (off + len8)) as [H4|H4];
    cbn [andb]; try reflexivity; try lia;
    rewrite padded_nth by lia.
  - (* inside the request *)
    destruct (Nat.ltb_spec (Z.to_nat (b - 4 * (off / 4))) (Z.to_nat (off mod 4))); [lia|].
    destruct (Nat.ltb_spec (Z.to_nat (b - 4 * (off / 4)))
                           (Z.to_nat (off mod 4) + Z.to_nat len8)); [|lia].
    do 2 f_equal. lia.
  - (* after the request, inside the aligned span *)
    destruct (Nat.ltb_spec (Z.to_nat (b - 4 * (off / 4))) (Z.to_nat (off mod 4))); [lia|].
    destruct (Nat.ltb_spec (Z.to_nat (b - 4 * (off / 4)))
                           (Z.to_nat (off mod 4) + Z.to_nat len8)); [lia|].
    destruct (Nat.ltb_spec (Z.to_nat (b - 4 * (off / 4))) (Z.to_nat R)); [|lia].
    apply land_255_byte, byte_at_is_byte.
  - (* before the request, inside the aligned span *)
    destruct (Nat.ltb_spec (Z.to_nat (b - 4 * (off / 4))) (Z.to_nat (off mod 4))); [|lia].
    apply land_255_byte, byte_at_is_byte.
Qed.

Lemma erase_byte_at (m : FlashMedium.contents) (page_words s p n b : Z) :
  FlashMedium.byte_at (FlashMedium.erase m page_words (s + p) n) s b
  = if (4 * p <=? b) && (b <? 4 * (p + page_words * n)) then 255
    else FlashMedium.byte_at m s b.
Proof.
  unfold FlashMedium.byte_at, FlashMedium.erase. rewrite shiftr_2.
  pose proof (Z.div_mod b 4 ltac:(lia)) as Hdm.
  pose proof (Z.mod_pos_bound b 4 ltac:(lia)) as Hr.
  destruct (Z.leb_spec (4 * p) b); destruct (Z.ltb_spec b (4 * (p + page_words * n)));
    destruct (Z.leb_spec (s + p) (s + b / 4));
    destruct (Z.ltb_spec (s + b / 4) (s + p + page_words * n));
    cbn [andb]; try reflexivity; try lia.
  apply byte_of_word_ones. lia.
Qed.

Section FsMore.
Import FsBackend.
Variable PAGE_SIZE_WORDS : Z.
Variable fs_config : fs_config_t.
Variable P : platform.

(** What a [true] from [writeData] tells. *)
Lemma writeData_true_inv (fuel : nat) (st : storage) (off : Z) (buffer : list Z)
      (len8 : Z) (st' : storage) :
  is_uint32 off -> is_uint16 len8 -> length buffer = Z.to_nat len8 ->
  writeData fs_config P fuel st off buffer len8 = Returns (true, st') ->
  0 < len8 /\ len8 + off mod 4 <= 65532 /\
  (forall b, off <= b < off + len8 ->
             FlashMedium.byte_at (flash st) (p_start_addr fs_config) b = 255) /\
  flash st' = FlashMedium.program (flash st) (p_start_addr fs_config + off / 4)
                                  (write_words off buffer len8) /\
  submitted st' = submitted st ++
                  [Store (p_start_addr fs_config + off / 4)
                         (write_words off buffer len8)
                         (round_up_4 (len8 + off mod 4) / 4)].
Proof.
  intros Hoff Hlen Hbuf H.
  assert (Hpos : 0 < len8).
  { destruct (Z.eq_dec len8 0) as [->|]; [discriminate H|].
    unfold is_uint16 in Hlen. lia. }
  assert (Hfit : len8 + off mod 4 <= 65532).
  { destruct (Z_le_gt_dec (len8 + off mod 4) 65532) as [Hle|Hgt]; [exact Hle|].
    exfalso. apply (writeData_wrap fs_config P fuel st off buffer len8 st' Hlen); [lia|exact H]. }
  rewrite writeData_inside in H by (assumption || lia).
  destruct (forallb _ _) eqn:Hall; [|discriminate H].
  cbv zeta in H.
  destruct (fs_success (fs_store P _ _)); cbn [negb] in H; [|discriminate H].
  unfold store_done, fs_evt_handler in H.
  destruct (fs_success (fs_store_result P)); cbn [negb] in H.
  - cbn [fs_callback_flag set_flag] in H.
    rewrite busy_wait_cleared, bind_returns in H.
    injection H as <-.
    match goal with
    | |- context [deinitBleSd P ?x] => destruct (deinitBleSd_flash P x) as [Hf Hs]
    end.
    rewrite Hf, Hs. cbn [flash submitted set_flag set_flash submit].
    destruct (initBleSd_flash P st) as [Hf0 Hs0]. rewrite Hf0, Hs0.
    repeat split; try lia.
    intros b Hb. apply (proj1 (forallb_bytes_erased _ _ _ _) Hall). lia.
  - cbn [fs_callback_flag set_flag submit] in H.
    rewrite busy_wait_spins in H. discriminate H.
Qed.

(** A region that is not erased is refused, and nothing is handed to the
    medium (inside the 16-bit range). *)
Lemma writeData_not_empty (fuel : nat) (st : storage) (off : Z) (buffer : list Z)
      (len8 b : Z) :
  is_uint32 off -> 0 < len8 -> len8 + off mod 4 <= 65532 ->
  length buffer = Z.to_nat len8 ->
  off <= b < off + len8 ->
  FlashMedium.byte_at (flash st) (p_start_addr fs_config) b <> 255 ->
  writeData fs_config P fuel st off buffer len8 = Returns (false, st).
Proof.
  intros Hoff Hlen Hfit Hbuf Hb Hne.
  rewrite writeData_inside by (assumption || lia).
  destruct (forallb _ _) eqn:Hall; [|reflexivity].
  exfalso. apply Hne. apply (proj1 (forallb_bytes_erased _ _ _ _) Hall). lia.
Qed.


(** What a [true] from [erasePage] tells. *)
Lemma erasePage_true_inv (fuel : nat) (st : storage) (page numPages : Z) (st' : storage) :
  erasePage PAGE_SIZE_WORDS fs_config P fuel st page numPages = Returns (true, st') ->
  flash st' = FlashMedium.erase (flash st) PAGE_SIZE_WORDS
                (p_start_addr fs_config + PAGE_SIZE_WORDS * page) numPages.
Proof.
  unfold erasePage. intros H.
  destruct (fs_success (fs_erase P _ _)); cbn [negb] in H; [|discriminate H].
  unfold erase_done, fs_evt_handler in H.
  destruct (fs_success (fs_erase_result P)); cbn [negb] in H.
  - cbn [fs_callback_flag set_flag] in H.
    rewrite busy_wait_cleared, bind_returns in H.
    injection H as <-.
    match goal with
    | |- context [deinitBleSd P ?x] => destruct (deinitBleSd_flash P x) as [Hf Hs]
    end.
    rewrite Hf. cbn [flash submitted set_flag set_flash submit].
    destruct (initBleSd_flash P st) as [Hf0 Hs0]. rewrite Hf0. reflexivity.
  - cbn [fs_callback_flag set_flag submit] in H.
    rewrite busy_wait_spins in H. discriminate H.
Qed.
End FsMore.

(** X4: Inside the 16-bit range the code computes the aligned request of the
    specification. *)
Lemma aligned_request_inside (offset length : Z) :
  is_uint32 offset -> 0 < length -> length + offset mod 4 <= 65532 ->
  preLength offset = spec_preSkip offset /\
  locationReal offset = spec_wordAddress offset /\
  lengthReal offset length = spec_byteSpan offset length /\
  length32 offset length = spec_wordCount offset length.
Proof.
  intros Hoff Hlen Hfit.
  unfold spec_preSkip, spec_wordAddress, spec_byteSpan, spec_wordCount, length32, spec_preSkip.
  rewrite shiftr_2, lengthReal_no_wrap by lia.
  repeat split.
  - apply preLength_eq.
  - apply locationReal_eq. exact Hoff.
Qed.

(** X6: A write inside the 16-bit range on an erased region, accepted and
    completed by the medium, reads back. *)
Lemma writeData_readData_roundtrip (fs_config : FsBackend.fs_config_t)
      (P : FsBackend.platform) (fuel : nat) (st : FsBackend.storage)
      (offset : Z) (data : list Z) (length : Z) :
  is_uint32 offset -> 0 < length -> length + offset mod 4 <= 65532 ->
  List.length data = Z.to_nat length -> Forall is_byte data ->
  (forall b, offset <= b < offset + length ->
             FlashMedium.byte_at (FsBackend.flash st) (FsBackend.p_start_addr fs_config) b = 255) ->
  FsBackend.fs_store P (FsBackend.p_start_addr fs_config + offset / 4)
                     (round_up_4 (length + offset mod 4) / 4) = FS_SUCCESS ->
  FsBackend.fs_store_result P = FS_SUCCESS ->
  exists st',
    FsBackend.writeData fs_config P fuel st offset data length = Returns (true, st') /\
    FsBackend.readData fs_config st' offset length = Returns (Some data).
Proof.
  intros Hoff Hlen Hfit Hdata Hbytes Herased Haccept Hdone.
  destruct (writeData_succeeds fs_config P fuel st offset data length)
    as (st' & Hw & Hflash & _); try assumption.
  exists st'. split; [exact Hw|].
  rewrite readData_inside by assumption.
  do 2 f_equal.
  apply (nth_ext _ _ 0 0).
  - rewrite bytes_at_length. symmetry. exact Hdata.
  - intros i Hi. rewrite bytes_at_length in Hi.
    rewrite bytes_at_nth by exact Hi.
    rewrite Hflash.
    rewrite write_words_byte_at; try assumption; [|unfold is_uint32 in Hoff; lia].
    destruct (Z.leb_spec offset (offset + Z.of_nat i)); [|lia].
    destruct (Z.ltb_spec (offset + Z.of_nat i) (offset + length)); [|lia].
    cbn [andb]. rewrite Herased by lia.
    replace (Z.to_nat (offset + Z.of_nat i - offset)) with i by lia.
    apply land_byte_255. apply Forall_is_byte_nth. exact Hbytes.
Qed.

(** [erasePage] of src/unnamed/part_000 when the medium refuses the request:
    [false] is returned without waiting for an event. *)
Lemma nrf_erasePage_rejected (PAGE_SIZE_WORDS : Z)
      (nrfFstorage : NrfFstorageBackend.nrf_fstorage_t)
      (P : NrfFstorageBackend.platform) (fuel : nat)
      (st : NrfFstorageBackend.storage) (page numPages : Z) :
  NrfFstorageBackend.nrf_success
    (NrfFstorageBackend.nrf_fstorage_erase P
       (uint32_t (NrfFstorageBackend.start_addr nrfFstorage + PAGE_SIZE_WORDS * page))
       numPages) = false ->
  nrf_seen (NrfFstorageBackend.erasePage PAGE_SIZE_WORDS nrfFstorage P fuel st page numPages)
  = Returns (false,
             NrfFstorageBackend.submitted st ++
             [Erase (uint32_t (NrfFstorageBackend.start_addr nrfFstorage
                               + PAGE_SIZE_WORDS * page)) numPages]).
Proof.
  intros Hrej. unfold NrfFstorageBackend.erasePage. rewrite Hrej. reflexivity.
Qed.

(** ** The unit tests of the repository, run on the sample medium *)

Example unit_test_write_over_page_border :
  FsBackend.readData Sample.fs_config
    (Sample.fs_after (Sample.fs_storage Sample.erased)
       (FsBackend.writeData Sample.fs_config Sample.healthy 0
          (Sample.fs_storage Sample.erased) (4096 - 8) Sample.writeData16 16))
    (4096 - 8) 16
  = Returns (Some Sample.writeData16).
Proof. vm_compute. reflexivity. Qed.

Example unit_test_write_above_end_address :
  fs_seen (FsBackend.writeData Sample.fs_config Sample.healthy 0
             (Sample.fs_storage Sample.erased) (32 * 4096) [234] 1)
  = Returns (false, [Store (98304 + 32 * 1024) [4294967274] 1]).
Proof. vm_compute. reflexivity. Qed.

Example unit_test_erase_pages :
  FsBackend.readData Sample.fs_config Sample.written 4095 1 = Returns (Some [90]) /\
  FsBackend.readData Sample.fs_config Sample.erased_again 4095 1 = Returns (Some [255]).
Proof. split; vm_compute; reflexivity. Qed.

(** ** The claims *)

(** C1, at the failing input: on the erased sample medium (131072 bytes) the
    region of 65535 bytes at offset 1 is inside the bounds, yet [writeData]
    does not store the data and [readData] does not deliver it: the 16-bit
    aligned length is 0, so that the check loop of the one reads a buffer
    that was never filled and the copy loop of the other leaves its buffer. *)
Theorem writeData_65535_at_1_undefined (P : FsBackend.platform) (fuel : nat)
        (st : FsBackend.storage) (data : list Z) :
  lengthReal 1 65535 = 0 /\
  FsBackend.writeData Sample.fs_config P fuel (Sample.fs_storage Sample.erased)
                      1 data 65535 = Undefined /\
  FsBackend.readData Sample.fs_config st 1 65535 = Undefined.
Proof. repeat split. Qed.

(** C2, at the failing inputs.  In src/unnamed/part_000 the check loop looks
    at the bytes of the number [start_addr + (locationReal >> 2)], not at the
    flash: whatever the byte at offset 0x3FC holds, [writeData] of one byte
    there passes the check and hands the store to the medium.  In both files
    a length past the 16-bit range (65533 bytes at offset 0) makes the check
    loop read a buffer that was never filled, whatever the flash holds. *)
Theorem writeData_not_erased_unchecked (fuel : nat) :
  NrfFstorageBackend.readData Sample.nrfFstorage 1020 4 = Returns (Some [255; 0; 0; 0]) /\
  (forall (P : NrfFstorageBackend.platform) (st : NrfFstorageBackend.storage),
      nrf_seen (NrfFstorageBackend.writeData Sample.nrfFstorage P fuel st 1020 [15] 1)
      <> Returns (false, NrfFstorageBackend.submitted st)) /\
  nrf_seen (NrfFstorageBackend.writeData Sample.nrfFstorage
              (Sample.nrf_platform NrfFstorageBackend.NRF_SUCCESS
                                   NrfFstorageBackend.NRF_SUCCESS)
              fuel Sample.nrf_storage 1020 [15] 1)
  = Returns (true, [Store 255 [4294967055] 1]) /\
  (forall (fs_config : FsBackend.fs_config_t) (P : FsBackend.platform)
          (st : FsBackend.storage) (data : list Z),
      FsBackend.writeData fs_config P fuel st 0 data 65533 = Undefined).
Proof.
  split; [reflexivity|]. split; [|split].
  - intros P st.
    unfold NrfFstorageBackend.writeData. cbn -[busy_wait].
    destruct (NrfFstorageBackend.nrf_fstorage_write P 255 1); cbn -[busy_wait].
    + destruct (NrfFstorageBackend.write_result P); cbn -[busy_wait].
      * rewrite busy_wait_cleared. cbn. intros [= H].
      * rewrite busy_wait_spins. discriminate.
    + intros [= H]. apply (f_equal (@length request)) in H.
      rewrite length_app in H. cbn in H. lia.
  - destruct fuel; reflexivity.
  - intros. reflexivity.
Qed.

(** C3, at the failing input: for [offset = 1] and [length = 65535] the code
    computes the aligned length 0 and the word count 0, where the rounding up
    of [length + preSkip] gives 65536 bytes and 16384 words. *)
Theorem lengthReal_65535_at_1 :
  preLength 1 = spec_preSkip 1 /\
  locationReal 1 = spec_wordAddress 1 /\
  lengthReal 1 65535 = 0 /\ spec_byteSpan 1 65535 = 65536 /\
  length32 1 65535 = 0 /\ spec_wordCount 1 65535 = 16384.
Proof. repeat split. Qed.

(** C4: a [writeData] that returns [true] hands the medium the data padded
    with 0xFF to the aligned span, and on a medium where programming only
    clears bits every byte outside [offset, offset + length) holds after the
    call what it held before, the padding bytes of the aligned span
    included. *)
Theorem writeData_keeps_outside (fs_config : FsBackend.fs_config_t)
        (P : FsBackend.platform) (fuel : nat) (st st' : FsBackend.storage)
        (offset : Z) (data : list Z) (length : Z) :
  is_uint32 offset -> is_uint16 length ->
  List.length data = Z.to_nat length -> Forall is_byte data ->
  FsBackend.writeData fs_config P fuel st offset data length = Returns (true, st') ->
  FsBackend.submitted st'
  = FsBackend.submitted st ++
    [Store (FsBackend.p_start_addr fs_config + offset / 4)
           (pack_words (Z.to_nat (round_up_4 (length + offset mod 4) / 4))
              (repeat 255 (Z.to_nat (offset mod 4)) ++ data ++
               repeat 255 (Z.to_nat (round_up_4 (length + offset mod 4))
                           - (Z.to_nat (offset mod 4) + Z.to_nat length))))
           (round_up_4 (length + offset mod 4) / 4)] /\
  forall b, ~ (offset <= b < offset + length) ->
            FlashMedium.byte_at (FsBackend.flash st') (FsBackend.p_start_addr fs_config) b
            = FlashMedium.byte_at (FsBackend.flash st) (FsBackend.p_start_addr fs_config) b.
Proof.
  intros Hoff Hlen Hdata Hbytes Hw.
  destruct (writeData_true_inv fs_config P fuel st offset data length st' Hoff Hlen Hdata Hw)
    as (Hpos & Hfit & _ & Hflash & Hsub).
  split.
  - rewrite Hsub. unfold write_words, padded.
    rewrite <- Hdata, firstn_all. reflexivity.
  - intros b Hb. rewrite Hflash.
    rewrite write_words_byte_at; try assumption; [|unfold is_uint32 in Hoff; lia].
    destruct (Z.leb_spec offset b); destruct (Z.ltb_spec b (offset + length));
      cbn [andb]; try reflexivity. lia.
Qed.

Lemma writeData_keeps_outside_witness :
  FlashMedium.byte_at (FsBackend.flash Sample.written)
                      (FsBackend.p_start_addr Sample.fs_config) 4094
  = FlashMedium.byte_at (FsBackend.flash (Sample.fs_storage Sample.erased))
                        (FsBackend.p_start_addr Sample.fs_config) 4094.
Proof.
  apply (writeData_keeps_outside Sample.fs_config Sample.healthy 0
           (Sample.fs_storage Sample.erased) Sample.written 4095 [90] 1).
  - unfold is_uint32. lia.
  - unfold is_uint16. lia.
  - reflexivity.
  - repeat constructor; unfold is_byte; lia.
  - reflexivity.
  - lia.
Defined.

(** The guard's answers do not reach what [writeData] leaves behind. *)
Lemma writeData_effect_guard_answers (fs_config : FsBackend.fs_config_t)
      (P : FsBackend.platform) (e : ble_error_t) (h : bool) (fuel : nat)
      (st : FsBackend.storage) (offset : Z) (data : list Z) (length : Z) :
  fs_effect (FsBackend.writeData fs_config (FsBackend.with_guard_answers P e h)
                                 fuel st offset data length)
  = fs_effect (FsBackend.writeData fs_config P fuel st offset data length).
Proof.
  unfold FsBackend.writeData.
  destruct (length =? 0); [reflexivity|].
  destruct (FsBackend.readData _ _ _ _) as [[bufferReal|]| |]; cbn [bind]; try reflexivity.
  destruct (check_empty _ _ _) as [[|]| |]; cbn [bind negb]; try reflexivity.
  destruct (assemble _ _ _ _ _) as [assembled| |]; cbn [bind]; try reflexivity.
  unfold conv8to32. cbn [negb].
  unfold FsBackend.initBleSd, FsBackend.store_done, FsBackend.fs_evt_handler,
    FsBackend.deinitBleSd, FsBackend.with_guard_answers.
  cbn [FsBackend.softdevice_handler_isEnabled FsBackend.ble_init
       FsBackend.ble_hasInitialized FsBackend.fs_store FsBackend.fs_erase
       FsBackend.fs_store_result FsBackend.fs_erase_result].
  destruct (FsBackend.softdevice_handler_isEnabled P); cbn [snd];
    (destruct (fs_success (FsBackend.fs_store P _ _)); cbn [negb]; [|reflexivity]);
    (destruct (fs_success (FsBackend.fs_store_result P)); cbn [negb];
     cbn [FsBackend.fs_callback_flag FsBackend.set_flag FsBackend.set_flash
          FsBackend.submit FsBackend.set_sd FsBackend.activatedSdStatus];
     [rewrite busy_wait_cleared | rewrite busy_wait_spins; reflexivity]);
    cbn [bind];
    try (destruct (FsBackend.activatedSdStatus st));
    destruct h, (FsBackend.ble_hasInitialized P); reflexivity.
Qed.

Lemma erasePage_effect_guard_answers (PAGE_SIZE_WORDS : Z)
      (fs_config : FsBackend.fs_config_t)
      (P : FsBackend.platform) (e : ble_error_t) (h : bool) (fuel : nat)
      (st : FsBackend.storage) (page numPages : Z) :
  fs_effect (FsBackend.erasePage PAGE_SIZE_WORDS fs_config
               (FsBackend.with_guard_answers P e h) fuel st page numPages)
  = fs_effect (FsBackend.erasePage PAGE_SIZE_WORDS fs_config P fuel st page numPages).
Proof.
  unfold FsBackend.erasePage.
  unfold FsBackend.initBleSd, FsBackend.erase_done, FsBackend.fs_evt_handler,
    FsBackend.deinitBleSd, FsBackend.with_guard_answers.
  cbn [FsBackend.softdevice_handler_isEnabled FsBackend.ble_init
       FsBackend.ble_hasInitialized FsBackend.fs_store FsBackend.fs_erase
       FsBackend.fs_store_result FsBackend.fs_erase_result].
  destruct (FsBackend.softdevice_handler_isEnabled P); cbn [snd];
    (destruct (fs_success (FsBackend.fs_erase P _ _)); cbn [negb]; [|reflexivity]);
    (destruct (fs_success (FsBackend.fs_erase_result P)); cbn [negb];
     cbn [FsBackend.fs_callback_flag FsBackend.set_flag FsBackend.set_flash
          FsBackend.submit FsBackend.set_sd FsBackend.activatedSdStatus];
     [rewrite busy_wait_cleared | rewrite busy_wait_spins; reflexivity]);
    cbn [bind];
    try (destruct (FsBackend.activatedSdStatus st));
    destruct h, (FsBackend.ble_hasInitialized P); reflexivity.
Qed.

(** C5, amended: [writeData] and [erasePage] do not inspect what [initBleSd]
    returns.  During a call in which the stack initialisation fails, the
    returned flag, the flash, the requests handed to the medium, the
    completion flag and [activatedSdStatus] are the same whatever [ble.init]
    answers and whatever [hasInitialized] reports; the write (of an erased
    range inside the 16-bit range) and the erase are handed to the medium all
    the same, the call returns [false] when the medium refuses the request and
    [true] when the medium accepts it and the completion event carries
    success.  What depends on the guard is the teardown alone: [deinitBleSd]
    leaves the event thread and queue when [hasInitialized] reports false. *)
Theorem guard_failure_runs_on (PAGE_SIZE_WORDS : Z)
        (fs_config : FsBackend.fs_config_t) (P : FsBackend.platform)
        (fuel : nat) (st : FsBackend.storage)
        (offset : Z) (data : list Z) (length page numPages : Z) :
  fst (FsBackend.initBleSd P st) <> BLE_ERROR_NONE ->
  is_uint32 offset -> 0 < length -> length + offset mod 4 <= 65532 ->
  List.length data = Z.to_nat length ->
  (forall b, offset <= b < offset + length ->
             FlashMedium.byte_at (FsBackend.flash st) (FsBackend.p_start_addr fs_config) b = 255) ->
  (forall e h,
      fs_effect (FsBackend.writeData fs_config (FsBackend.with_guard_answers P e h)
                                     fuel st offset data length)
      = fs_effect (FsBackend.writeData fs_config P fuel st offset data length) /\
      fs_effect (FsBackend.erasePage PAGE_SIZE_WORDS fs_config
                   (FsBackend.with_guard_answers P e h) fuel st page numPages)
      = fs_effect (FsBackend.erasePage PAGE_SIZE_WORDS fs_config P fuel st page numPages)) /\
  (fs_success (FsBackend.fs_store P (FsBackend.p_start_addr fs_config + offset / 4)
                                  (round_up_4 (length + offset mod 4) / 4)) = false ->
   fs_seen (FsBackend.writeData fs_config P fuel st offset data length)
   = Returns (false,
              FsBackend.submitted st ++
              [Store (FsBackend.p_start_addr fs_config + offset / 4)
                     (write_words offset data length)
                     (round_up_4 (length + offset mod 4) / 4)])) /\
  (fs_success (FsBackend.fs_store P (FsBackend.p_start_addr fs_config + offset / 4)
                                  (round_up_4 (length + offset mod 4) / 4)) = true ->
   fs_success (FsBackend.fs_store_result P) = true ->
   exists st',
     FsBackend.writeData fs_config P fuel st offset data length = Returns (true, st') /\
     FsBackend.submitted st'
     = FsBackend.submitted st ++
       [Store (FsBackend.p_start_addr fs_config + offset / 4)
              (write_words offset data length)
              (round_up_4 (length + offset mod 4) / 4)] /\
     FsBackend.sdEventThread st' = negb (FsBackend.ble_hasInitialized P)) /\
  (fs_success (FsBackend.fs_erase P (FsBackend.p_start_addr fs_config
                                     + PAGE_SIZE_WORDS * page) numPages) = false ->
   fs_seen (FsBackend.erasePage PAGE_SIZE_WORDS fs_config P fuel st page numPages)
   = Returns (false,
              FsBackend.submitted st ++
              [Erase (FsBackend.p_start_addr fs_config + PAGE_SIZE_WORDS * page)
                     numPages])) /\
  (fs_success (FsBackend.fs_erase P (FsBackend.p_start_addr fs_config
                                     + PAGE_SIZE_WORDS * page) numPages) = true ->
   fs_success (FsBackend.fs_erase_result P) = true ->
   exists st',
     FsBackend.erasePage PAGE_SIZE_WORDS fs_config P fuel st page numPages
     = Returns (true, st') /\
     FsBackend.submitted st'
     = FsBackend.submitted st ++
       [Erase (FsBackend.p_start_addr fs_config + PAGE_SIZE_WORDS * page) numPages] /\
     FsBackend.sdEventThread st' = negb (FsBackend.ble_hasInitialized P)).
Proof.
  intros Hfail Hoff Hlen Hfit Hdata Herased.
  assert (Hsd : FsBackend.softdevice_handler_isEnabled P = false).
  { unfold FsBackend.initBleSd in Hfail.
    destruct (FsBackend.softdevice_handler_isEnabled P); [|reflexivity].
    exfalso. apply Hfail. reflexivity. }
  assert (Hall : forallb (fun b => b =? 255)
                   (FlashMedium.bytes_at (FsBackend.flash st)
                      (FsBackend.p_start_addr fs_config) offset (Z.to_nat length)) = true).
  { apply forallb_bytes_erased. intros b Hb. apply Herased. lia. }
  split; [|split; [|split; [|split]]].
  - intros e h. split.
    + apply writeData_effect_guard_answers.
    + apply erasePage_effect_guard_answers.
  - intros Hrej.
    rewrite writeData_inside by (assumption || lia).
    rewrite Hall. cbv zeta. rewrite Hrej. cbn [negb].
    unfold fs_seen. rewrite bind_returns.
    cbn [fst snd FsBackend.submitted FsBackend.submit FsBackend.set_flag].
    destruct (initBleSd_flash P st) as [_ Hs]. rewrite Hs. reflexivity.
  - intros Hacc Hdone.
    rewrite writeData_inside by (assumption || lia).
    rewrite Hall. cbv zeta. rewrite Hacc. cbn [negb].
    unfold FsBackend.store_done, FsBackend.fs_evt_handler. rewrite Hdone. cbn [negb].
    cbn [FsBackend.fs_callback_flag FsBackend.set_flag].
    rewrite busy_wait_cleared, bind_returns.
    eexists. split; [reflexivity|].
    unfold FsBackend.deinitBleSd, FsBackend.initBleSd. rewrite Hsd.
    cbn [snd FsBackend.activatedSdStatus FsBackend.set_sd FsBackend.set_flag
         FsBackend.set_flash FsBackend.submit].
    destruct (FsBackend.ble_hasInitialized P); split; reflexivity.
  - intros Hrej. unfold FsBackend.erasePage. rewrite Hrej. cbn [negb].
    unfold fs_seen. rewrite bind_returns.
    cbn [fst snd FsBackend.submitted FsBackend.submit FsBackend.set_flag].
    destruct (initBleSd_flash P st) as [_ Hs]. rewrite Hs. reflexivity.
  - intros Hacc Hdone. unfold FsBackend.erasePage. rewrite Hacc. cbn [negb].
    unfold FsBackend.erase_done, FsBackend.fs_evt_handler. rewrite Hdone. cbn [negb].
    cbn [FsBackend.fs_callback_flag FsBackend.set_flag].
    rewrite busy_wait_cleared, bind_returns.
    eexists. split; [reflexivity|].
    unfold FsBackend.deinitBleSd, FsBackend.initBleSd. rewrite Hsd.
    cbn [snd FsBackend.activatedSdStatus FsBackend.set_sd FsBackend.set_flag
         FsBackend.set_flash FsBackend.submit].
    destruct (FsBackend.ble_hasInitialized P); split; reflexivity.
Qed.

Lemma guard_failure_runs_on_witness :
  fst (FsBackend.initBleSd Scenario.guard_failing (Sample.fs_storage Sample.erased))
  = BLE_ERROR 1 /\
  (exists st',
      FsBackend.writeData Sample.fs_config Scenario.guard_failing 0
        (Sample.fs_storage Sample.erased) 0 [90] 1 = Returns (true, st') /\
      FsBackend.submitted st'
      = FsBackend.submitted (Sample.fs_storage Sample.erased) ++
        [Store (FsBackend.p_start_addr Sample.fs_config + 0 / 4)
               (write_words 0 [90] 1) (round_up_4 (1 + 0 mod 4) / 4)] /\
      FsBackend.sdEventThread st'
      = negb (FsBackend.ble_hasInitialized Scenario.guard_failing)) /\
  (exists st',
      FsBackend.erasePage Sample.PAGE_SIZE_WORDS Sample.fs_config Scenario.guard_failing 0
        (Sample.fs_storage Sample.erased) 0 1 = Returns (true, st') /\
      FsBackend.submitted st'
      = FsBackend.submitted (Sample.fs_storage Sample.erased) ++
        [Erase (FsBackend.p_start_addr Sample.fs_config + Sample.PAGE_SIZE_WORDS * 0) 1] /\
      FsBackend.sdEventThread st'
      = negb (FsBackend.ble_hasInitialized Scenario.guard_failing)) /\
  fs_effect (FsBackend.writeData Sample.fs_config
               (FsBackend.with_guard_answers Scenario.guard_failing BLE_ERROR_NONE true) 0
               (Sample.fs_storage Sample.erased) 0 [90] 1)
  = fs_effect (FsBackend.writeData Sample.fs_config Scenario.guard_failing 0
                 (Sample.fs_storage Sample.erased) 0 [90] 1).
Proof.
  split; [reflexivity|].
  destruct (guard_failure_runs_on Sample.PAGE_SIZE_WORDS Sample.fs_config
              Scenario.guard_failing 0 (Sample.fs_storage Sample.erased) 0 [90] 1 0 1)
    as (Hsame & _ & Hwrite & _ & Herase).
  - discriminate.
  - unfold is_uint32. lia.
  - lia.
  - vm_compute. discriminate.
  - reflexivity.
  - intros b _. unfold FlashMedium.byte_at, Sample.erased, Sample.fs_storage.
    cbn [FsBackend.flash]. apply byte_of_word_ones. apply Z.mod_pos_bound. lia.
  - split; [apply Hwrite; reflexivity|].
    split; [apply Herase; reflexivity|].
    apply (Hsame BLE_ERROR_NONE true).
Defined.

(** C5 as stated fails: with the SoftDevice off and [ble.init] answering an
    error, [writeData] and [erasePage] hand their request to the medium and
    return [true]. *)
Lemma guard_failure_still_submits :
  fst (FsBackend.initBleSd (Sample.fs_platform (BLE_ERROR 1) FS_SUCCESS FS_SUCCESS)
                           (Sample.fs_storage Sample.erased)) = BLE_ERROR 1 /\
  fs_seen (FsBackend.writeData Sample.fs_config
             (Sample.fs_platform (BLE_ERROR 1) FS_SUCCESS FS_SUCCESS) 0
             (Sample.fs_storage Sample.erased) 0 [90] 1)
  = Returns (true, [Store 98304 [4294967130] 1]) /\
  fs_seen (FsBackend.erasePage Sample.PAGE_SIZE_WORDS Sample.fs_config
             (Sample.fs_platform (BLE_ERROR 1) FS_SUCCESS FS_SUCCESS) 0
             (Sample.fs_storage Sample.erased) 0 1)
  = Returns (true, [Erase 98304 1]).
Proof. repeat split. Qed.




(** C7, at the failing inputs: when the medium accepts the request and its
    completion event carries a failure, the event handler leaves the flag at
    1 and the call polls it for ever; [writeData] and [erasePage] of both
    files do not return, whatever the fuel. *)
Theorem completion_failure_never_returns (fuel : nat) :
  FsBackend.writeData Sample.fs_config
    (Sample.fs_platform BLE_ERROR_NONE (FS_ERROR 8) FS_SUCCESS) fuel
    (Sample.fs_storage Sample.erased) 0 [90] 1 = Spinning /\
  FsBackend.erasePage Sample.PAGE_SIZE_WORDS Sample.fs_config
    (Sample.fs_platform BLE_ERROR_NONE FS_SUCCESS (FS_ERROR 8)) fuel
    (Sample.fs_storage Sample.erased) 0 1 = Spinning /\
  NrfFstorageBackend.writeData Sample.nrfFstorage
    (Sample.nrf_platform (NrfFstorageBackend.NRF_ERROR 13) NrfFstorageBackend.NRF_SUCCESS)
    fuel Sample.nrf_storage 1020 [15] 1 = Spinning /\
  NrfFstorageBackend.erasePage Sample.PAGE_SIZE_WORDS Sample.nrfFstorage
    (Sample.nrf_platform NrfFstorageBackend.NRF_SUCCESS (NrfFstorageBackend.NRF_ERROR 13))
    fuel Sample.nrf_storage 0 1 = Spinning.
Proof.
  repeat split; cbv -[busy_wait]; rewrite busy_wait_spins; reflexivity.
Qed.

(** C8: after an [erasePage (p)] that returned [true], every byte of page
    [p], the last one included, reads back as 0xFF. *)
Theorem erasePage_reads_FF (PAGE_SIZE_WORDS : Z)
        (fs_config : FsBackend.fs_config_t) (P : FsBackend.platform)
        (fuel : nat) (st st' : FsBackend.storage) (p offset : Z) :
  is_uint32 offset ->
  4 * (PAGE_SIZE_WORDS * p) <= offset < 4 * (PAGE_SIZE_WORDS * p + PAGE_SIZE_WORDS) ->
  FsBackend.erasePage PAGE_SIZE_WORDS fs_config P fuel st p 1 = Returns (true, st') ->
  FsBackend.readData fs_config st' offset 1 = Returns (Some [255]).
Proof.
  intros Hoff Hin He.
  apply erasePage_true_inv in He.
  pose proof (Z.mod_pos_bound offset 4 ltac:(lia)) as Hpre.
  rewrite readData_inside by (assumption || lia).
  change (Z.to_nat 1) with 1%nat. unfold FlashMedium.bytes_at. cbn [seq map].
  rewrite He, erase_byte_at.
  replace (offset + Z.of_nat 0) with offset by lia.
  destruct (Z.leb_spec (4 * (PAGE_SIZE_WORDS * p)) offset);
    destruct (Z.ltb_spec offset (4 * (PAGE_SIZE_WORDS * p + PAGE_SIZE_WORDS * 1)));
    cbn [andb]; try reflexivity; lia.
Qed.

Lemma erasePage_reads_FF_witness :
  FsBackend.readData Sample.fs_config Sample.written 4095 1 = Returns (Some [90]) /\
  FsBackend.readData Sample.fs_config Sample.erased_again 4095 1 = Returns (Some [255]).
Proof.
  split; [vm_compute; reflexivity|].
  apply (erasePage_reads_FF Sample.PAGE_SIZE_WORDS Sample.fs_config Sample.healthy 0
           Sample.written Sample.erased_again 0 4095).
  - unfold is_uint32. lia.
  - vm_compute. split; [discriminate|reflexivity].
  - reflexivity.
Defined.

(** C9, at the failing input: on the erased medium, 4 bytes read at offset 8
    are 0xFF four times with src/storage/NRF52FlashStorage.cpp, which
    dereferences the word pointer, and the bytes of the number 2 (the word
    index, [start_addr + (8 >> 2)]) with src/unnamed/part_000, which stores
    the number itself in the word buffer. *)
Theorem readData_backends_differ :
  FsBackend.readData Sample.fs_config (Sample.fs_storage Sample.erased) 8 4
  = Returns (Some [255; 255; 255; 255]) /\
  NrfFstorageBackend.readData Sample.nrfFstorage 8 4 = Returns (Some [2; 0; 0; 0]) /\
  NrfFstorageBackend.read_words Sample.nrfFstorage 8 1 = [2].
Proof. repeat split. Qed.

(** C10: whenever [length8 + offset mod 4] rounded up to a multiple of 4
    exceeds 65535, the aligned length [readData] and [writeData] compute is
    that number modulo 2^16, and it is less than the length asked for. *)
Theorem lengthReal_wraps (offset length8 : Z) :
  is_uint16 length8 ->
  65535 < round_up_4 (length8 + offset mod 4) ->
  lengthReal offset length8 = uint16_t (round_up_4 (length8 + offset mod 4)) /\
  lengthReal offset length8 = round_up_4 (length8 + offset mod 4) - 2 ^ 16 /\
  lengthReal offset length8 < length8.
Proof.
  intros Hlen Hbig.
  pose proof (lengthReal_wrap offset length8 Hlen Hbig) as HL.
  pose proof (Z.mod_pos_bound offset 4 ltac:(lia)) as Hpre.
  destruct (round_up_4_bounds (length8 + offset mod 4)) as [Hb Hm].
  unfold is_uint16 in Hlen. change (2 ^ 16) with 65536 in *.
  split; [|split].
  - rewrite HL. unfold uint16_t. change (2 ^ 16) with 65536.
    symmetry. 
    rewrite <- (Z.mod_add _ (-1) 65536) by lia.
    apply Z.mod_small. lia.
  - exact HL.
  - lia.
Qed.

Lemma lengthReal_wraps_witness :
  1 mod 4 <> 0 /\
  lengthReal 1 65535 = uint16_t (round_up_4 (65535 + 1 mod 4)) /\
  lengthReal 1 65535 = round_up_4 (65535 + 1 mod 4) - 2 ^ 16 /\
  lengthReal 1 65535 < 65535.
Proof.
  split; [discriminate|].
  apply (lengthReal_wraps 1 65535).
  - unfold is_uint16. lia.
  - vm_compute. reflexivity.
Defined.

(** * Further properties *)

(** ** src/storage/NRF52FlashStorage.cpp *)

(** X1: What [readData] delivers inside the 16-bit range: [true], and the flash
    bytes from [offset] on, whether or not they lie inside the configured
    bounds. *)
Theorem readData_returns_flash_bytes (fs_config : FsBackend.fs_config_t)
        (st : FsBackend.storage) (offset length : Z) :
  is_uint32 offset -> 0 < length -> length + offset mod 4 <= 65532 ->
  exists bytes,
    FsBackend.readData fs_config st offset length = Returns (Some bytes) /\
    List.length bytes = Z.to_nat length /\
    forall i, 0 <= i < length ->
              nth (Z.to_nat i) bytes 0
              = FlashMedium.byte_at (FsBackend.flash st)
                  (FsBackend.p_start_addr fs_config) (offset + i).
Proof.
  intros Hoff Hlen Hfit.
  eexists. split; [apply readData_inside; assumption|].
  split; [apply bytes_at_length|].
  intros i Hi. rewrite bytes_at_nth by lia. f_equal. lia.
Qed.

Lemma readData_returns_flash_bytes_witness :
  exists bytes,
    FsBackend.readData Sample.fs_config Sample.written 4094 2 = Returns (Some bytes) /\
    List.length bytes = Z.to_nat 2 /\
    forall i, 0 <= i < 2 ->
              nth (Z.to_nat i) bytes 0
              = FlashMedium.byte_at (FsBackend.flash Sample.written)
                  (FsBackend.p_start_addr Sample.fs_config) (4094 + i).
Proof.
  apply (readData_returns_flash_bytes Sample.fs_config Sample.written 4094 2).
  - unfold is_uint32. lia.
  - lia.
  - vm_compute. discriminate.
Defined.

(** X2: The aligned span inside the 16-bit range: it starts on a word boundary
    at most 3 bytes before the request, ends on a word boundary at most 3
    bytes after it, and [length32] words make it up. *)
Theorem aligned_span_covers_request (offset length : Z) :
  is_uint32 offset -> 0 < length -> length + offset mod 4 <= 65532 ->
  locationReal offset mod 4 = 0 /\
  locationReal offset + preLength offset = offset /\
  0 <= preLength offset <= 3 /\
  lengthReal offset length mod 4 = 0 /\
  offset + length <= locationReal offset + lengthReal offset length < offset + length + 4 /\
  4 * length32 offset length = lengthReal offset length.
Proof.
  intros Hoff Hlen Hfit.
  pose proof (Z.mod_pos_bound offset 4 ltac:(lia)) as Hpre.
  pose proof (Z.div_mod offset 4 ltac:(lia)) as Hdm.
  destruct (round_up_4_bounds (length + offset mod 4)) as [Hb Hm].
  unfold length32. rewrite shiftr_2.
  rewrite lengthReal_no_wrap, preLength_eq, locationReal_aligned by (assumption || lia).
  pose proof (Z.div_mod (round_up_4 (length + offset mod 4)) 4 ltac:(lia)) as HR.
  repeat split; try lia.
  rewrite Z.mul_comm. apply Z.mod_mul. lia.
Qed.

Lemma aligned_span_covers_request_witness :
  locationReal 4093 mod 4 = 0 /\
  locationReal 4093 + preLength 4093 = 4093 /\
  0 <= preLength 4093 <= 3 /\
  lengthReal 4093 6 mod 4 = 0 /\
  4093 + 6 <= locationReal 4093 + lengthReal 4093 6 < 4093 + 6 + 4 /\
  4 * length32 4093 6 = lengthReal 4093 6.
Proof.
  apply (aligned_span_covers_request 4093 6).
  - unfold is_uint32. lia.
  - lia.
  - vm_compute. discriminate.
Defined.

(** X3: The aligned length covers the request exactly when
    [length8 + p_location % 4] is at most 65532. *)
Theorem lengthReal_covers_iff (offset length8 : Z) :
  is_uint16 length8 -> 0 < length8 ->
  (preLength offset + length8 <= lengthReal offset length8
   <-> length8 + offset mod 4 <= 65532).
Proof.
  intros Hlen Hpos.
  pose proof (Z.mod_pos_bound offset 4 ltac:(lia)) as Hpre.
  destruct (round_up_4_bounds (length8 + offset mod 4)) as [Hb Hm].
  rewrite preLength_eq. split.
  - intros Hcover.
    destruct (Z_le_gt_dec (length8 + offset mod 4) 65532) as [Hle|Hgt]; [exact Hle|].
    exfalso.
    assert (Hbig : 65535 < round_up_4 (length8 + offset mod 4)).
    { pose proof (Z.div_mod (round_up_4 (length8 + offset mod 4)) 4 ltac:(lia)). lia. }
    pose proof (lengthReal_wrap offset length8 Hlen Hbig) as HL.
    unfold is_uint16 in Hlen. change (2 ^ 16) with 65536 in Hlen. lia.
  - intros Hfit. rewrite lengthReal_no_wrap by lia. lia.
Qed.

Lemma lengthReal_covers_iff_witness :
  (preLength 3 + 65529 <= lengthReal 3 65529 <-> 65529 + 3 mod 4 <= 65532) /\
  (preLength 3 + 65530 <= lengthReal 3 65530 <-> 65530 + 3 mod 4 <= 65532).
Proof.
  split.
  - apply (lengthReal_covers_iff 3 65529); [unfold is_uint16|]; lia.
  - apply (lengthReal_covers_iff 3 65530); [unfold is_uint16|]; lia.
Defined.

Lemma healthy_refuses_past_end (p n : Z) :
  FsBackend.p_end_addr Sample.fs_config < p + n ->
  fs_success (FsBackend.fs_store Sample.healthy p n) = false.
Proof.
  intros H. cbn [Sample.healthy Sample.fs_platform FsBackend.fs_store].
  destruct (Z.ltb_spec p (FsBackend.p_start_addr Sample.fs_config));
    destruct (Z.ltb_spec (FsBackend.p_end_addr Sample.fs_config) (p + n));
    cbn [orb]; try reflexivity. lia.
Qed.

(** The flash after a [writeData] that returned [true], byte by byte. *)
Lemma writeData_true_bytes (fs_config : FsBackend.fs_config_t)
      (P : FsBackend.platform) (fuel : nat) (st st' : FsBackend.storage)
      (offset : Z) (data : list Z) (length b : Z) :
  is_uint32 offset -> is_uint16 length ->
  List.length data = Z.to_nat length -> Forall is_byte data ->
  FsBackend.writeData fs_config P fuel st offset data length = Returns (true, st') ->
  FlashMedium.byte_at (FsBackend.flash st') (FsBackend.p_start_addr fs_config) b
  = if (offset <=? b) && (b <? offset + length)
    then nth (Z.to_nat (b - offset)) data 0
    else FlashMedium.byte_at (FsBackend.flash st) (FsBackend.p_start_addr fs_config) b.
Proof.
  intros Hoff Hlen Hdata Hbytes Hw.
  destruct (writeData_true_inv fs_config P fuel st offset data length st' Hoff Hlen Hdata Hw)
    as (Hpos & Hfit & Herased & Hflash & _).
  rewrite Hflash.
  rewrite write_words_byte_at; try assumption; [|unfold is_uint32 in Hoff; lia].
  destruct (Z.leb_spec offset b); destruct (Z.ltb_spec b (offset + length));
    cbn [andb]; try reflexivity.
  rewrite Herased by lia. apply land_byte_255. apply Forall_is_byte_nth. exact Hbytes.
Qed.

(** X5: After a [writeData] that returned [true], [readData] of any range (inside
    the 16-bit range) delivers the written bytes where the range meets the
    written one and what the flash held before everywhere else. *)
Theorem readData_after_writeData (fs_config : FsBackend.fs_config_t)
        (P : FsBackend.platform) (fuel : nat) (st st' : FsBackend.storage)
        (offset : Z) (data : list Z) (length from count : Z) :
  is_uint32 offset -> is_uint16 length ->
  List.length data = Z.to_nat length -> Forall is_byte data ->
  FsBackend.writeData fs_config P fuel st offset data length = Returns (true, st') ->
  is_uint32 from -> 0 < count -> count + from mod 4 <= 65532 ->
  FsBackend.readData fs_config st' from count
  = Returns (Some (map (fun i =>
                          let b := from + Z.of_nat i in
                          if (offset <=? b) && (b <? offset + length)
                          then nth (Z.to_nat (b - offset)) data 0
                          else FlashMedium.byte_at (FsBackend.flash st)
                                 (FsBackend.p_start_addr fs_config) b)
                       (seq 0 (Z.to_nat count)))).
Proof.
  intros Hoff Hlen Hdata Hbytes Hw Hfrom Hcount Hfit.
  rewrite readData_inside by assumption.
  do 2 f_equal. unfold FlashMedium.bytes_at.
  apply map_ext. intros i. cbv zeta.
  apply (writeData_true_bytes fs_config P fuel st st' offset data length); assumption.
Qed.

Lemma readData_after_writeData_witness :
  FsBackend.readData Sample.fs_config Sample.written 4092 4
  = Returns (Some (map (fun i =>
                          let b := 4092 + Z.of_nat i in
                          if (4095 <=? b) && (b <? 4095 + 1)
                          then nth (Z.to_nat (b - 4095)) [90] 0
                          else FlashMedium.byte_at
                                 (FsBackend.flash (Sample.fs_storage Sample.erased))
                                 (FsBackend.p_start_addr Sample.fs_config) b)
                       (seq 0 (Z.to_nat 4)))).
Proof.
  apply (readData_after_writeData Sample.fs_config Sample.healthy 0
           (Sample.fs_storage Sample.erased) Sample.written 4095 [90] 1 4092 4).
  - u32.
  - u16.
  - reflexivity.
  - bytes.
  - reflexivity.
  - u32.
  - lia.
  - vm_compute. discriminate.
Defined.

(** X8: Past the 16-bit range [writeData] does not report success and hands
    nothing to the medium: if it returns at all, it returns [false] and the
    state is the one it was called in. *)
Theorem writeData_past_16_bits (fs_config : FsBackend.fs_config_t)
        (P : FsBackend.platform) (fuel : nat) (st st' : FsBackend.storage)
        (offset : Z) (data : list Z) (length8 : Z) (r : bool) :
  is_uint16 length8 -> 65532 < length8 + offset mod 4 ->
  FsBackend.writeData fs_config P fuel st offset data length8 = Returns (r, st') ->
  r = false /\ st' = st.
Proof.
  intros Hlen Hwrap.
  pose proof (Z.mod_pos_bound offset 4 ltac:(lia)) as Hpre.
  destruct (round_up_4_bounds (length8 + offset mod 4)) as [Hb Hm].
  assert (Hbig : 65535 < round_up_4 (length8 + offset mod 4)).
  { pose proof (Z.div_mod (round_up_4 (length8 + offset mod 4)) 4 ltac:(lia)). lia. }
  pose proof (lengthReal_wrap offset length8 Hlen Hbig) as HL.
  unfold is_uint16 in Hlen. change (2 ^ 16) with 65536 in Hlen.
  unfold FsBackend.writeData.
  destruct (Z.eqb_spec length8 0); [lia|].
  destruct (FsBackend.readData fs_config st (locationReal offset) (lengthReal offset length8))
    as [[bufferReal|]| |] eqn:ER; cbn [bind]; try discriminate.
  apply readData_length in ER.
  pose proof (check_empty_overrun (Z.to_nat length8) bufferReal (preLength offset)) as Hover.
  rewrite preLength_eq in *.
  destruct (check_empty bufferReal (offset mod 4) (Z.to_nat length8)) as [[|]| |];
    cbn [bind negb]; try discriminate.
  - exfalso. apply Hover; [lia|lia| |reflexivity]. rewrite ER, HL. lia.
  - intros [= <- <-]. split; reflexivity.
Qed.

Lemma writeData_past_16_bits_witness :
  FsBackend.writeData Sample.fs_config Sample.healthy 0 Sample.written 4095 [] 65535
  = Returns (false, Sample.written) /\
  (false = false /\ Sample.written = Sample.written).
Proof.
  split; [reflexivity|].
  apply (writeData_past_16_bits Sample.fs_config Sample.healthy 0 Sample.written
           Sample.written 4095 [] 65535 false).
  - u16.
  - vm_compute. reflexivity.
  - reflexivity.
Defined.

(** X10: A [false] from [writeData] means the flash is as before, whatever the
    arguments; at most the one refused store was handed to the medium. *)
Theorem writeData_false_keeps_flash (fs_config : FsBackend.fs_config_t)
        (P : FsBackend.platform) (fuel : nat) (st st' : FsBackend.storage)
        (offset : Z) (data : list Z) (length8 : Z) :
  FsBackend.writeData fs_config P fuel st offset data length8 = Returns (false, st') ->
  FsBackend.flash st' = FsBackend.flash st /\
  (FsBackend.submitted st' = FsBackend.submitted st \/
   exists p_dest buf32 length32,
     FsBackend.submitted st' = FsBackend.submitted st ++ [Store p_dest buf32 length32] /\
     fs_success (FsBackend.fs_store P p_dest length32) = false).
Proof.
  unfold FsBackend.writeData.
  destruct (length8 =? 0); [intros [= <-]; split; [reflexivity|left; reflexivity]|].
  destruct (FsBackend.readData _ _ _ _) as [[bufferReal|]| |]; cbn [bind]; try discriminate.
  destruct (check_empty _ _ _) as [[|]| |]; cbn [bind negb]; try discriminate;
    [|intros [= <-]; split; [reflexivity|left; reflexivity]].
  destruct (assemble _ _ _ _ _) as [assembled| |]; cbn [bind]; try discriminate.
  unfold conv8to32. cbn [negb].
  destruct (fs_success (FsBackend.fs_store P _ _)) eqn:Hret; cbn [negb].
  - destruct (busy_wait _ _); cbn [bind]; discriminate.
  - intros [= <-]. cbn [FsBackend.flash FsBackend.submitted FsBackend.submit FsBackend.set_flag].
    destruct (initBleSd_flash P st) as [Hf Hs]. rewrite Hf, Hs.
    split; [reflexivity|]. right. eexists _, _, _. split; [reflexivity|exact Hret].
Qed.

Lemma writeData_false_keeps_flash_witness :
  FsBackend.flash Scenario.refused_at_end
  = FsBackend.flash (Sample.fs_storage Sample.erased) /\
  (FsBackend.submitted Scenario.refused_at_end
   = FsBackend.submitted (Sample.fs_storage Sample.erased) \/
   exists p_dest buf32 length32,
     FsBackend.submitted Scenario.refused_at_end
     = FsBackend.submitted (Sample.fs_storage Sample.erased)
       ++ [Store p_dest buf32 length32] /\
     fs_success (FsBackend.fs_store Sample.healthy p_dest length32) = false).
Proof.
  apply (writeData_false_keeps_flash Sample.fs_config Sample.healthy 0
           (Sample.fs_storage Sample.erased) Scenario.refused_at_end
           (32 * 4096) [234] 1).
  reflexivity.
Defined.

(** [readData] delivers [data] when the flash holds it. *)
Lemma readData_of_bytes (fs_config : FsBackend.fs_config_t) (st : FsBackend.storage)
      (offset : Z) (data : list Z) (length : Z) :
  is_uint32 offset -> 0 < length -> length + offset mod 4 <= 65532 ->
  List.length data = Z.to_nat length ->
  (forall i, 0 <= i < length ->
             FlashMedium.byte_at (FsBackend.flash st) (FsBackend.p_start_addr fs_config)
                                 (offset + i) = nth (Z.to_nat i) data 0) ->
  FsBackend.readData fs_config st offset length = Returns (Some data).
Proof.
  intros Hoff Hlen Hfit Hdata Hbytes.
  rewrite readData_inside by assumption. do 2 f_equal.
  apply (nth_ext _ _ 0 0).
  - rewrite bytes_at_length. symmetry. exact Hdata.
  - intros i Hi. rewrite bytes_at_length in Hi.
    rewrite bytes_at_nth by exact Hi. rewrite Hbytes by lia. f_equal. lia.
Qed.

Lemma erased_byte_at (s b : Z) : FlashMedium.byte_at Sample.erased s b = 255.
Proof.
  unfold FlashMedium.byte_at, Sample.erased. apply byte_of_word_ones.
  apply Z.mod_pos_bound. lia.
Qed.

(** X12: Two writes to disjoint erased ranges, each accepted and completed by the
    medium, both succeed, in the same word or not, and both ranges read back
    afterwards. *)
Theorem writeData_twice_disjoint (fs_config : FsBackend.fs_config_t)
        (P : FsBackend.platform) (fuel : nat) (st : FsBackend.storage)
        (offset1 : Z) (data1 : list Z) (length1 : Z)
        (offset2 : Z) (data2 : list Z) (length2 : Z) :
  is_uint32 offset1 -> 0 < length1 -> length1 + offset1 mod 4 <= 65532 ->
  List.length data1 = Z.to_nat length1 -> Forall is_byte data1 ->
  is_uint32 offset2 -> 0 < length2 -> length2 + offset2 mod 4 <= 65532 ->
  List.length data2 = Z.to_nat length2 -> Forall is_byte data2 ->
  offset1 + length1 <= offset2 \/ offset2 + length2 <= offset1 ->
  (forall b, offset1 <= b < offset1 + length1 \/ offset2 <= b < offset2 + length2 ->
             FlashMedium.byte_at (FsBackend.flash st) (FsBackend.p_start_addr fs_config) b = 255) ->
  FsBackend.fs_store P (FsBackend.p_start_addr fs_config + offset1 / 4)
                     (round_up_4 (length1 + offset1 mod 4) / 4) = FS_SUCCESS ->
  FsBackend.fs_store P (FsBackend.p_start_addr fs_config + offset2 / 4)
                     (round_up_4 (length2 + offset2 mod 4) / 4) = FS_SUCCESS ->
  FsBackend.fs_store_result P = FS_SUCCESS ->
  exists st1 st2,
    FsBackend.writeData fs_config P fuel st offset1 data1 length1 = Returns (true, st1) /\
    FsBackend.writeData fs_config P fuel st1 offset2 data2 length2 = Returns (true, st2) /\
    FsBackend.readData fs_config st2 offset1 length1 = Returns (Some data1) /\
    FsBackend.readData fs_config st2 offset2 length2 = Returns (Some data2).
Proof.
  intros Ho1 Hl1 Hf1 Hd1 Hb1 Ho2 Hl2 Hf2 Hd2 Hb2 Hdisj Herased Ha1 Ha2 Hdone.
  assert (Hu1 : is_uint16 length1) by (pose proof (Z.mod_pos_bound offset1 4 ltac:(lia));
                                      unfold is_uint16; change (2 ^ 16) with 65536; lia).
  assert (Hu2 : is_uint16 length2) by (pose proof (Z.mod_pos_bound offset2 4 ltac:(lia));
                                      unfold is_uint16; change (2 ^ 16) with 65536; lia).
  destruct (writeData_succeeds fs_config P fuel st offset1 data1 length1)
    as (st1 & Hw1 & _ & _); try assumption.
  { intros b Hb. apply Herased. left. exact Hb. }
  pose proof (fun b => writeData_true_bytes fs_config P fuel st st1 offset1 data1 length1 b
                         Ho1 Hu1 Hd1 Hb1 Hw1) as Hst1.
  destruct (writeData_succeeds fs_config P fuel st1 offset2 data2 length2)
    as (st2 & Hw2 & _ & _); try assumption.
  { intros b Hb. rewrite Hst1.
    destruct (Z.leb_spec offset1 b); destruct (Z.ltb_spec b (offset1 + length1));
      cbn [andb]; try (apply Herased; right; exact Hb). lia. }
  pose proof (fun b => writeData_true_bytes fs_config P fuel st1 st2 offset2 data2 length2 b
                         Ho2 Hu2 Hd2 Hb2 Hw2) as Hst2.
  exists st1, st2. repeat split; try assumption.
  - apply readData_of_bytes; try assumption.
    intros i Hi. rewrite Hst2.
    destruct (Z.leb_spec offset2 (offset1 + i));
      destruct (Z.ltb_spec (offset1 + i) (offset2 + length2)); cbn [andb]; try lia;
      rewrite Hst1;
      (destruct (Z.leb_spec offset1 (offset1 + i)); [|lia]);
      (destruct (Z.ltb_spec (offset1 + i) (offset1 + length1)); [|lia]);
      cbn [andb]; f_equal; lia.
  - apply readData_of_bytes; try assumption.
    intros i Hi. rewrite Hst2.
    destruct (Z.leb_spec offset2 (offset2 + i)); [|lia].
    destruct (Z.ltb_spec (offset2 + i) (offset2 + length2)); [|lia].
    cbn [andb]. f_equal. lia.
Qed.

Lemma writeData_twice_disjoint_witness :
  exists st1 st2,
    FsBackend.writeData Sample.fs_config Sample.healthy 0
      (Sample.fs_storage Sample.erased) 0 [161] 1 = Returns (true, st1) /\
    FsBackend.writeData Sample.fs_config Sample.healthy 0 st1 1 [178] 1
    = Returns (true, st2) /\
    FsBackend.readData Sample.fs_config st2 0 1 = Returns (Some [161]) /\
    FsBackend.readData Sample.fs_config st2 1 1 = Returns (Some [178]).
Proof.
  apply (writeData_twice_disjoint Sample.fs_config Sample.healthy 0
           (Sample.fs_storage Sample.erased) 0 [161] 1 1 [178] 1).
  - u32.
  - lia.
  - vm_compute. discriminate.
  - reflexivity.
  - bytes.
  - u32.
  - lia.
  - vm_compute. discriminate.
  - reflexivity.
  - bytes.
  - left. lia.
  - intros b _. apply erased_byte_at.
  - reflexivity.
  - reflexivity.
  - reflexivity.
Defined.

(** X13: Write once per erase cycle: after a [writeData] that returned [true] and
    programmed a byte other than 0xFF, every [writeData] whose range holds
    that byte (inside the 16-bit range) returns [false] and leaves the state
    as it is. *)
Theorem writeData_over_written (fs_config : FsBackend.fs_config_t)
        (P P' : FsBackend.platform) (fuel fuel' : nat) (st st' : FsBackend.storage)
        (offset : Z) (data : list Z) (length i : Z)
        (offset' : Z) (data' : list Z) (length' : Z) :
  is_uint32 offset -> is_uint16 length ->
  List.length data = Z.to_nat length -> Forall is_byte data ->
  FsBackend.writeData fs_config P fuel st offset data length = Returns (true, st') ->
  0 <= i < length -> nth (Z.to_nat i) data 0 <> 255 ->
  is_uint32 offset' -> 0 < length' -> length' + offset' mod 4 <= 65532 ->
  List.length data' = Z.to_nat length' ->
  offset' <= offset + i < offset' + length' ->
  FsBackend.writeData fs_config P' fuel' st' offset' data' length' = Returns (false, st').
Proof.
  intros Hoff Hlen Hdata Hbytes Hw Hi Hne Hoff' Hlen' Hfit' Hdata' Hin.
  apply (writeData_not_empty fs_config P' fuel' st' offset' data' length' (offset + i));
    try assumption.
  rewrite (writeData_true_bytes fs_config P fuel st st' offset data length (offset + i));
    try assumption.
  destruct (Z.leb_spec offset (offset + i)); [|lia].
  destruct (Z.ltb_spec (offset + i) (offset + length)); [|lia].
  cbn [andb]. replace (offset + i - offset) with i by lia. exact Hne.
Qed.

Lemma writeData_over_written_witness :
  FsBackend.writeData Sample.fs_config Sample.healthy 0 Sample.written 4092 [1; 2; 3; 4] 4
  = Returns (false, Sample.written).
Proof.
  apply (writeData_over_written Sample.fs_config Sample.healthy Sample.healthy 0 0
           (Sample.fs_storage Sample.erased) Sample.written 4095 [90] 1 0
           4092 [1; 2; 3; 4] 4).
  - u32.
  - u16.
  - reflexivity.
  - bytes.
  - reflexivity.
  - lia.
  - vm_compute. discriminate.
  - u32.
  - lia.
  - vm_compute. discriminate.
  - reflexivity.
  - lia.
Defined.

(** X7: Inside the 16-bit range [writeData] returns [false] with the state as it
    was, nothing handed to the medium, exactly when some byte of the
    requested range is not 0xFF. *)
Theorem writeData_refused_iff_programmed (fs_config : FsBackend.fs_config_t)
        (P : FsBackend.platform) (fuel : nat) (st : FsBackend.storage)
        (offset : Z) (data : list Z) (length : Z) :
  is_uint32 offset -> 0 < length -> length + offset mod 4 <= 65532 ->
  List.length data = Z.to_nat length ->
  (FsBackend.writeData fs_config P fuel st offset data length = Returns (false, st)
   <-> ~ (forall b, offset <= b < offset + length ->
                    FlashMedium.byte_at (FsBackend.flash st)
                      (FsBackend.p_start_addr fs_config) b = 255)).
Proof.
  intros Hoff Hlen Hfit Hdata.
  rewrite writeData_inside by (assumption || lia).
  pose proof (forallb_bytes_erased (FsBackend.flash st) (FsBackend.p_start_addr fs_config)
                offset (Z.to_nat length)) as Hiff.
  replace (offset + Z.of_nat (Z.to_nat length)) with (offset + length) in Hiff by lia.
  destruct (forallb _ _) eqn:Hall.
  - split.
    + cbv zeta. intros H. exfalso.
      destruct (fs_success (FsBackend.fs_store P _ _)); cbn [negb] in H.
      * destruct (busy_wait _ _); cbn [bind] in H; discriminate H.
      * injection H as H. apply (f_equal FsBackend.submitted) in H.
        cbn [FsBackend.submitted FsBackend.submit FsBackend.set_flag] in H.
        destruct (initBleSd_flash P st) as [_ Hs]. rewrite Hs in H.
        apply (f_equal (@List.length request)) in H.
        rewrite length_app in H. cbn in H. lia.
    + intros Hn. exfalso. apply Hn. apply Hiff. reflexivity.
  - split; [|reflexivity].
    intros _ Hn. apply Hiff in Hn. discriminate Hn.
Qed.

Lemma writeData_refused_iff_programmed_witness :
  FsBackend.writeData Sample.fs_config Sample.healthy 0 Sample.written 4092 [1; 2; 3; 4] 4
  = Returns (false, Sample.written)
  <-> ~ (forall b, 4092 <= b < 4092 + 4 ->
                   FlashMedium.byte_at (FsBackend.flash Sample.written)
                     (FsBackend.p_start_addr Sample.fs_config) b = 255).
Proof.
  apply (writeData_refused_iff_programmed Sample.fs_config Sample.healthy 0 Sample.written
           4092 [1; 2; 3; 4] 4).
  - u32.
  - lia.
  - vm_compute. discriminate.
  - reflexivity.
Defined.

(** X14: After an [erasePage] that returned [true], [readData] of any range
    (inside the 16-bit range) delivers 0xFF for every byte of the erased
    pages and what the flash held before for every other byte. *)
Theorem readData_after_erasePage (PAGE_SIZE_WORDS : Z)
        (fs_config : FsBackend.fs_config_t) (P : FsBackend.platform)
        (fuel : nat) (st st' : FsBackend.storage) (page numPages from count : Z) :
  FsBackend.erasePage PAGE_SIZE_WORDS fs_config P fuel st page numPages = Returns (true, st') ->
  is_uint32 from -> 0 < count -> count + from mod 4 <= 65532 ->
  FsBackend.readData fs_config st' from count
  = Returns (Some (map (fun i =>
                          let b := from + Z.of_nat i in
                          if (4 * (PAGE_SIZE_WORDS * page) <=? b)
                             && (b <? 4 * (PAGE_SIZE_WORDS * page + PAGE_SIZE_WORDS * numPages))
                          then 255
                          else FlashMedium.byte_at (FsBackend.flash st)
                                 (FsBackend.p_start_addr fs_config) b)
                       (seq 0 (Z.to_nat count)))).
Proof.
  intros He Hfrom Hcount Hfit.
  apply erasePage_true_inv in He.
  rewrite readData_inside by assumption.
  do 2 f_equal. unfold FlashMedium.bytes_at.
  apply map_ext. intros i. cbv zeta.
  rewrite He. apply erase_byte_at.
Qed.

Lemma readData_after_erasePage_witness :
  FsBackend.readData Sample.fs_config Sample.erased_again 4094 4
  = Returns (Some (map (fun i =>
                          let b := 4094 + Z.of_nat i in
                          if (4 * (Sample.PAGE_SIZE_WORDS * 0) <=? b)
                             && (b <? 4 * (Sample.PAGE_SIZE_WORDS * 0
                                           + Sample.PAGE_SIZE_WORDS * 1))
                          then 255
                          else FlashMedium.byte_at (FsBackend.flash Sample.written)
                                 (FsBackend.p_start_addr Sample.fs_config) b)
                       (seq 0 (Z.to_nat 4)))).
Proof.
  apply (readData_after_erasePage Sample.PAGE_SIZE_WORDS Sample.fs_config Sample.healthy 0
           Sample.written Sample.erased_again 0 1 4094 4).
  - reflexivity.
  - u32.
  - lia.
  - vm_compute. discriminate.
Defined.

(** X15: Erasing makes a page writable again: after an [erasePage] that returned
    [true], a [writeData] inside the erased pages (inside the 16-bit range),
    accepted and completed by the medium, returns [true] and reads back,
    whatever the pages held before. *)
Theorem writeData_after_erasePage (PAGE_SIZE_WORDS : Z)
        (fs_config : FsBackend.fs_config_t) (P P' : FsBackend.platform)
        (fuel fuel' : nat) (st st1 : FsBackend.storage) (page numPages : Z)
        (offset : Z) (data : list Z) (length : Z) :
  FsBackend.erasePage PAGE_SIZE_WORDS fs_config P fuel st page numPages = Returns (true, st1) ->
  is_uint32 offset -> 0 < length -> length + offset mod 4 <= 65532 ->
  List.length data = Z.to_nat length -> Forall is_byte data ->
  4 * (PAGE_SIZE_WORDS * page) <= offset ->
  offset + length <= 4 * (PAGE_SIZE_WORDS * page + PAGE_SIZE_WORDS * numPages) ->
  FsBackend.fs_store P' (FsBackend.p_start_addr fs_config + offset / 4)
                     (round_up_4 (length + offset mod 4) / 4) = FS_SUCCESS ->
  FsBackend.fs_store_result P' = FS_SUCCESS ->
  exists st2,
    FsBackend.writeData fs_config P' fuel' st1 offset data length = Returns (true, st2) /\
    FsBackend.readData fs_config st2 offset length = Returns (Some data).
Proof.
  intros He Hoff Hlen Hfit Hdata Hbytes Hlo Hhi Haccept Hdone.
  apply erasePage_true_inv in He.
  assert (Hu : is_uint16 length) by (pose proof (Z.mod_pos_bound offset 4 ltac:(lia));
                                    unfold is_uint16; change (2 ^ 16) with 65536; lia).
  destruct (writeData_succeeds fs_config P' fuel' st1 offset data length)
    as (st2 & Hw & _ & _); try assumption.
  { intros b Hb. rewrite He, erase_byte_at.
    destruct (Z.leb_spec (4 * (PAGE_SIZE_WORDS * page)) b); [|lia].
    destruct (Z.ltb_spec b (4 * (PAGE_SIZE_WORDS * page + PAGE_SIZE_WORDS * numPages)));
      [reflexivity|lia]. }
  exists st2. split; [exact Hw|].
  apply readData_of_bytes; try assumption.
  intros i Hi.
  rewrite (writeData_true_bytes fs_config P' fuel' st1 st2 offset data length (offset + i));
    try assumption.
  destruct (Z.leb_spec offset (offset + i)); [|lia].
  destruct (Z.ltb_spec (offset + i) (offset + length)); [|lia].
  cbn [andb]. f_equal. lia.
Qed.

Lemma writeData_after_erasePage_witness :
  exists st2,
    FsBackend.writeData Sample.fs_config Sample.healthy 0 Sample.erased_again 4095 [7] 1
    = Returns (true, st2) /\
    FsBackend.readData Sample.fs_config st2 4095 1 = Returns (Some [7]).
Proof.
  apply (writeData_after_erasePage Sample.PAGE_SIZE_WORDS Sample.fs_config
           Sample.healthy Sample.healthy 0 0 Sample.written Sample.erased_again 0 1
           4095 [7] 1).
  - reflexivity.
  - u32.
  - lia.
  - vm_compute. discriminate.
  - reflexivity.
  - bytes.
  - vm_compute. discriminate.
  - vm_compute. discriminate.
  - reflexivity.
  - reflexivity.
Defined.

(** X16: On a medium that refuses a store reaching past the configured end, a
    [writeData] whose range ends past [getEndAddress () - getStartAddress ()]
    (inside the 16-bit range) returns [false] and the flash is as before:
    either the range is not erased, or the medium refuses the store. *)
Theorem writeData_past_end (fs_config : FsBackend.fs_config_t)
        (P : FsBackend.platform) (fuel : nat) (st : FsBackend.storage)
        (offset : Z) (data : list Z) (length : Z) :
  (forall p n, FsBackend.p_end_addr fs_config < p + n ->
               fs_success (FsBackend.fs_store P p n) = false) ->
  0 <= FsBackend.p_start_addr fs_config <= FsBackend.p_end_addr fs_config ->
  4 * FsBackend.p_end_addr fs_config < 2 ^ 32 ->
  is_uint32 offset -> 0 < length -> length + offset mod 4 <= 65532 ->
  List.length data = Z.to_nat length ->
  FsBackend.getEndAddress fs_config - FsBackend.getStartAddress fs_config < offset + length ->
  exists st',
    FsBackend.writeData fs_config P fuel st offset data length = Returns (false, st') /\
    FsBackend.flash st' = FsBackend.flash st.
Proof.
  intros Hmedium Hcfg Hcfg32 Hoff Hlen Hfit Hdata Hpast.
  unfold FsBackend.getEndAddress, FsBackend.getStartAddress, uint32_t in Hpast.
  rewrite !Z.mod_small in Hpast by lia.
  rewrite writeData_inside by (assumption || lia).
  destruct (forallb _ _); [|exists st; split; reflexivity].
  cbv zeta. rewrite Hmedium.
  - cbn [negb]. eexists. split; [reflexivity|].
    cbn [FsBackend.flash FsBackend.submit FsBackend.set_flag].
    apply (initBleSd_flash P st).
  - pose proof (Z.mod_pos_bound offset 4 ltac:(lia)) as Hpre.
    pose proof (Z.div_mod offset 4 ltac:(lia)) as Hdm.
    destruct (round_up_4_bounds (length + offset mod 4)) as [Hb Hm].
    pose proof (Z.div_mod (round_up_4 (length + offset mod 4)) 4 ltac:(lia)) as HR.
    lia.
Qed.

Lemma writeData_past_end_witness :
  exists st',
    FsBackend.writeData Sample.fs_config Sample.healthy 0
      (Sample.fs_storage Sample.erased) (32 * 4096) [234] 1 = Returns (false, st') /\
    FsBackend.flash st' = FsBackend.flash (Sample.fs_storage Sample.erased).
Proof.
  apply (writeData_past_end Sample.fs_config Sample.healthy 0
           (Sample.fs_storage Sample.erased) (32 * 4096) [234] 1).
  - exact healthy_refuses_past_end.
  - vm_compute. split; discriminate.
  - vm_compute. reflexivity.
  - u32.
  - lia.
  - vm_compute. discriminate.
  - reflexivity.
  - vm_compute. reflexivity.
Defined.

(** X17: A call that returns [true] has released what it acquired: the guard
    flag [activatedSdStatus] is off and the completion flag is 0. *)
Theorem guard_released_on_success (PAGE_SIZE_WORDS : Z)
        (fs_config : FsBackend.fs_config_t) (P : FsBackend.platform)
        (fuel : nat) (st st' : FsBackend.storage)
        (offset : Z) (data : list Z) (length page numPages : Z) :
  FsBackend.writeData fs_config P fuel st offset data length = Returns (true, st') \/
  FsBackend.erasePage PAGE_SIZE_WORDS fs_config P fuel st page numPages = Returns (true, st') ->
  FsBackend.activatedSdStatus st' = false /\ FsBackend.fs_callback_flag st' = 0.
Proof.
  assert (Hde : forall s, FsBackend.fs_callback_flag s = 0 ->
                          FsBackend.activatedSdStatus (FsBackend.deinitBleSd P s) = false /\
                          FsBackend.fs_callback_flag (FsBackend.deinitBleSd P s) = 0).
  { intros s Hs. unfold FsBackend.deinitBleSd.
    destruct (FsBackend.activatedSdStatus s) eqn:Ha;
      [destruct (FsBackend.ble_hasInitialized P)|];
      cbn; split; solve [reflexivity | assumption]. }
  intros [H|H].
  - unfold FsBackend.writeData in H.
    destruct (length =? 0); [discriminate H|].
    destruct (FsBackend.readData _ _ _ _) as [[bufferReal|]| |]; cbn [bind] in H;
      try discriminate H.
    destruct (check_empty _ _ _) as [[|]| |]; cbn [bind negb] in H; try discriminate H.
    destruct (assemble _ _ _ _ _) as [assembled| |]; cbn [bind] in H; try discriminate H.
    unfold conv8to32 in H. cbn [negb] in H.
    destruct (fs_success (FsBackend.fs_store P _ _)); cbn [negb] in H; [|discriminate H].
    unfold FsBackend.store_done, FsBackend.fs_evt_handler in H.
    destruct (fs_success (FsBackend.fs_store_result P)); cbn [negb] in H.
    + cbn [FsBackend.fs_callback_flag FsBackend.set_flag] in H.
      rewrite busy_wait_cleared, bind_returns in H. injection H as <-.
      apply Hde. reflexivity.
    + cbn [FsBackend.fs_callback_flag FsBackend.set_flag FsBackend.submit] in H.
      rewrite busy_wait_spins in H. discriminate H.
  - unfold FsBackend.erasePage in H.
    destruct (fs_success (FsBackend.fs_erase P _ _)); cbn [negb] in H; [|discriminate H].
    unfold FsBackend.erase_done, FsBackend.fs_evt_handler in H.
    destruct (fs_success (FsBackend.fs_erase_result P)); cbn [negb] in H.
    + cbn [FsBackend.fs_callback_flag FsBackend.set_flag] in H.
      rewrite busy_wait_cleared, bind_returns in H. injection H as <-.
      apply Hde. reflexivity.
    + cbn [FsBackend.fs_callback_flag FsBackend.set_flag FsBackend.submit] in H.
      rewrite busy_wait_spins in H. discriminate H.
Qed.

Lemma guard_released_on_success_witness :
  FsBackend.activatedSdStatus Sample.written = false /\
  FsBackend.fs_callback_flag Sample.written = 0.
Proof.
  apply (guard_released_on_success Sample.PAGE_SIZE_WORDS Sample.fs_config Sample.healthy 0
           (Sample.fs_storage Sample.erased) Sample.written 4095 [90] 1 0 1).
  left. reflexivity.
Defined.

(** The failure path skips [deinitBleSd]: when the SoftDevice is not enabled
    and the medium refuses the erase, [erasePage] returns [false] with
    [activatedSdStatus] on, the event thread and queue it created still
    there, and the completion flag at 1. *)
Theorem erasePage_refused_keeps_guard (PAGE_SIZE_WORDS : Z)
        (fs_config : FsBackend.fs_config_t) (P : FsBackend.platform)
        (fuel : nat) (st : FsBackend.storage) (page numPages : Z) :
  FsBackend.softdevice_handler_isEnabled P = false ->
  fs_success (FsBackend.fs_erase P (FsBackend.p_start_addr fs_config
                                    + PAGE_SIZE_WORDS * page) numPages) = false ->
  exists st',
    FsBackend.erasePage PAGE_SIZE_WORDS fs_config P fuel st page numPages
    = Returns (false, st') /\
    FsBackend.activatedSdStatus st' = true /\
    FsBackend.sdEventThread st' = true /\
    FsBackend.fs_callback_flag st' = 1.
Proof.
  intros Hsd Hrej. unfold FsBackend.erasePage, FsBackend.initBleSd.
  rewrite Hsd, Hrej. cbn [negb snd].
  eexists. split; [reflexivity|]. repeat split.
Qed.

Lemma erasePage_refused_keeps_guard_witness :
  exists st',
    FsBackend.erasePage Sample.PAGE_SIZE_WORDS Sample.fs_config Sample.healthy 0
      (Sample.fs_storage Sample.erased) 32 1 = Returns (false, st') /\
    FsBackend.activatedSdStatus st' = true /\
    FsBackend.sdEventThread st' = true /\
    FsBackend.fs_callback_flag st' = 1.
Proof.
  apply (erasePage_refused_keeps_guard Sample.PAGE_SIZE_WORDS Sample.fs_config
           Sample.healthy 0 (Sample.fs_storage Sample.erased) 32 1).
  - reflexivity.
  - reflexivity.
Defined.

(** X18: The failure path of [writeData] skips [deinitBleSd]: when the
    SoftDevice is not enabled and the medium refuses the store of a write
    inside the 16-bit range on an erased range, [writeData] returns [false]
    with [activatedSdStatus] on, the event thread and queue it created still
    there, and the completion flag at 1. *)
Theorem writeData_refused_keeps_guard (fs_config : FsBackend.fs_config_t)
        (P : FsBackend.platform) (fuel : nat) (st : FsBackend.storage)
        (offset : Z) (data : list Z) (length : Z) :
  FsBackend.softdevice_handler_isEnabled P = false ->
  is_uint32 offset -> 0 < length -> length + offset mod 4 <= 65532 ->
  List.length data = Z.to_nat length ->
  (forall b, offset <= b < offset + length ->
             FlashMedium.byte_at (FsBackend.flash st) (FsBackend.p_start_addr fs_config) b = 255) ->
  fs_success (FsBackend.fs_store P (FsBackend.p_start_addr fs_config + offset / 4)
                                 (round_up_4 (length + offset mod 4) / 4)) = false ->
  exists st',
    FsBackend.writeData fs_config P fuel st offset data length = Returns (false, st') /\
    FsBackend.activatedSdStatus st' = true /\
    FsBackend.sdEventThread st' = true /\
    FsBackend.fs_callback_flag st' = 1.
Proof.
  intros Hsd Hoff Hlen Hfit Hdata Herased Hrej.
  rewrite writeData_inside by (assumption || lia).
  assert (Hall : forallb (fun b => b =? 255)
                   (FlashMedium.bytes_at (FsBackend.flash st)
                      (FsBackend.p_start_addr fs_config) offset (Z.to_nat length)) = true).
  { apply forallb_bytes_erased. intros b Hb. apply Herased. lia. }
  rewrite Hall. cbv zeta. rewrite Hrej. cbn [negb].
  unfold FsBackend.initBleSd. rewrite Hsd. cbn [snd].
  eexists. split; [reflexivity|]. repeat split.
Qed.

Lemma writeData_refused_keeps_guard_witness :
  exists st',
    FsBackend.writeData Sample.fs_config Sample.healthy 0
      (Sample.fs_storage Sample.erased) (32 * 4096) [234] 1 = Returns (false, st') /\
    FsBackend.activatedSdStatus st' = true /\
    FsBackend.sdEventThread st' = true /\
    FsBackend.fs_callback_flag st' = 1.
Proof.
  apply (writeData_refused_keeps_guard Sample.fs_config Sample.healthy 0
           (Sample.fs_storage Sample.erased) (32 * 4096) [234] 1).
  - reflexivity.
  - u32.
  - lia.
  - vm_compute. discriminate.
  - reflexivity.
  - intros b _. apply erased_byte_at.
  - reflexivity.
Defined.

(** A copy loop that leaves its buffer. *)
Lemma shift_out_overrun (n : nat) (bufferReal : list Z) (pre j : Z) :
  0 <= j + pre -> (0 < n)%nat ->
  (List.length bufferReal < Z.to_nat (j + pre) + n)%nat ->
  shift_out bufferReal pre j n = Undefined.
Proof.
  revert j. induction n as [|n IH]; intros j Hj Hn Hlen; [lia|].
  cbn [shift_out].
  destruct (Nat.ltb_spec (Z.to_nat (j + pre)) (List.length bufferReal)) as [Hin|Hout].
  - rewrite load_inside by lia. rewrite bind_returns.
    rewrite IH; [reflexivity|lia|lia|lia].
  - rewrite load_outside by lia. reflexivity.
Qed.

(** X9: Past the 16-bit range [readData] of either file does not return: its
    copy loop reads past the end of [bufferReal]. *)
Theorem readData_past_16_bits (fs_config : FsBackend.fs_config_t)
        (st : FsBackend.storage) (nrfFstorage : NrfFstorageBackend.nrf_fstorage_t)
        (offset length8 : Z) :
  is_uint16 length8 -> 65532 < length8 + offset mod 4 ->
  FsBackend.readData fs_config st offset length8 = Undefined /\
  NrfFstorageBackend.readData nrfFstorage offset length8 = Undefined.
Proof.
  intros Hlen Hwrap.
  pose proof (Z.mod_pos_bound offset 4 ltac:(lia)) as Hpre.
  destruct (round_up_4_bounds (length8 + offset mod 4)) as [Hb Hm].
  assert (Hbig : 65535 < round_up_4 (length8 + offset mod 4)).
  { pose proof (Z.div_mod (round_up_4 (length8 + offset mod 4)) 4 ltac:(lia)). lia. }
  pose proof (lengthReal_wrap offset length8 Hlen Hbig) as HL.
  unfold is_uint16 in Hlen. change (2 ^ 16) with 65536 in Hlen.
  assert (Hshift : forall buf32,
             shift_out (snd (conv32to8 buf32 (lengthReal offset length8)))
                       (preLength offset) 0 (Z.to_nat length8) = Undefined).
  { intros buf32. apply shift_out_overrun; [pose proof (preLength_range offset); lia|lia|].
    unfold conv32to8. cbn [snd]. rewrite length_firstn, preLength_eq, HL. lia. }
  split.
  - unfold FsBackend.readData. destruct (Z.eqb_spec length8 0); [lia|].
    specialize (Hshift (FsBackend.read_words fs_config (FsBackend.flash st)
                          (locationReal offset) (Z.to_nat (length32 offset length8)))).
    unfold conv32to8 in *. cbn [negb snd] in *. rewrite Hshift. reflexivity.
  - unfold NrfFstorageBackend.readData. destruct (Z.eqb_spec length8 0); [lia|].
    specialize (Hshift (NrfFstorageBackend.read_words nrfFstorage
                          (locationReal offset) (Z.to_nat (length32 offset length8)))).
    unfold conv32to8 in *. cbn [negb snd] in *. rewrite Hshift. reflexivity.
Qed.

Lemma readData_past_16_bits_witness :
  FsBackend.readData Sample.fs_config Sample.written 1 65535 = Undefined /\
  NrfFstorageBackend.readData Sample.nrfFstorage 1 65535 = Undefined.
Proof.
  apply (readData_past_16_bits Sample.fs_config Sample.written Sample.nrfFstorage 1 65535).
  - u16.
  - vm_compute. reflexivity.
Defined.

Lemma aligned_request_inside_witness :
  preLength 4093 = spec_preSkip 4093 /\
  locationReal 4093 = spec_wordAddress 4093 /\
  lengthReal 4093 6 = spec_byteSpan 4093 6 /\
  length32 4093 6 = spec_wordCount 4093 6.
Proof.
  apply (aligned_request_inside 4093 6); [u32|lia|vm_compute; discriminate].
Defined.

Lemma writeData_readData_roundtrip_witness :
  exists st',
    FsBackend.writeData Sample.fs_config Sample.healthy 0
      (Sample.fs_storage Sample.erased) 4088 Sample.writeData16 16 = Returns (true, st') /\
    FsBackend.readData Sample.fs_config st' 4088 16 = Returns (Some Sample.writeData16).
Proof.
  apply (writeData_readData_roundtrip Sample.fs_config Sample.healthy 0
           (Sample.fs_storage Sample.erased) 4088 Sample.writeData16 16).
  - u32.
  - lia.
  - vm_compute. discriminate.
  - reflexivity.
  - unfold Sample.writeData16. bytes.
  - intros b _. apply erased_byte_at.
  - reflexivity.
  - reflexivity.
Defined.

(** ** src/unnamed/part_000 *)

(** The flash on which [FsBackend.readData] behaves as [readData] of
    part_000: every word holds the number of its own word pointer. *)
Lemma nrf_readData_as_fs (nrfFstorage : NrfFstorageBackend.nrf_fstorage_t)
      (offset length : Z) :
  NrfFstorageBackend.readData nrfFstorage offset length
  = FsBackend.readData
      {| FsBackend.p_start_addr := NrfFstorageBackend.start_addr nrfFstorage;
         FsBackend.p_end_addr := NrfFstorageBackend.end_addr nrfFstorage;
         FsBackend.num_pages := 0 |}
      (Sample.fs_storage uint32_t) offset length.
Proof. reflexivity. Qed.

Lemma byte_of_word_uint32_0 (x : Z) : byte_of_word (uint32_t x) 0 = x mod 256.
Proof.
  unfold byte_of_word, uint32_t. rewrite Z.shiftr_0_r.
  change 255 with (Z.ones 8). rewrite Z.land_ones by lia.
  change (2 ^ 8) with 256.
  apply Z.mod_mod_divide. exists (2 ^ 24). reflexivity.
Qed.

(** X19: What [readData] of part_000 delivers inside the 16-bit range: the bytes
    of the numbers [start_addr + (offset + i) / 4], nothing of the flash. *)
Theorem nrf_readData_returns_numbers (nrfFstorage : NrfFstorageBackend.nrf_fstorage_t)
        (offset length : Z) :
  is_uint32 offset -> 0 < length -> length + offset mod 4 <= 65532 ->
  NrfFstorageBackend.readData nrfFstorage offset length
  = Returns (Some (map (fun i =>
                          byte_of_word
                            (uint32_t (NrfFstorageBackend.start_addr nrfFstorage
                                       + (offset + Z.of_nat i) / 4))
                            ((offset + Z.of_nat i) mod 4))
                       (seq 0 (Z.to_nat length)))).
Proof.
  intros Hoff Hlen Hfit.
  rewrite nrf_readData_as_fs, readData_inside by assumption.
  do 2 f_equal. unfold FlashMedium.bytes_at, FlashMedium.byte_at.
  apply map_ext. intros i. cbn [FsBackend.flash Sample.fs_storage FsBackend.p_start_addr].
  rewrite shiftr_2. reflexivity.
Qed.

Lemma nrf_readData_returns_numbers_witness :
  NrfFstorageBackend.readData Sample.nrfFstorage 1020 4
  = Returns (Some (map (fun i =>
                          byte_of_word
                            (uint32_t (NrfFstorageBackend.start_addr Sample.nrfFstorage
                                       + (1020 + Z.of_nat i) / 4))
                            ((1020 + Z.of_nat i) mod 4))
                       (seq 0 (Z.to_nat 4)))).
Proof.
  apply (nrf_readData_returns_numbers Sample.nrfFstorage 1020 4).
  - u32.
  - lia.
  - vm_compute. discriminate.
Defined.

(** X20: [writeData] of part_000 refuses every request of 8 bytes or more (inside
    the 16-bit range), whatever the flash holds: the check loop meets the low
    bytes of two successive numbers, which cannot both be 0xFF.  The state is
    as before and nothing is handed to the medium. *)
Theorem nrf_writeData_8_bytes_refused (nrfFstorage : NrfFstorageBackend.nrf_fstorage_t)
        (P : NrfFstorageBackend.platform) (fuel : nat)
        (st : NrfFstorageBackend.storage) (offset : Z) (data : list Z) (length : Z) :
  is_uint32 offset -> 8 <= length -> length + offset mod 4 <= 65532 ->
  NrfFstorageBackend.writeData nrfFstorage P fuel st offset data length
  = Returns (false, st).
Proof.
  intros Hoff Hlen Hfit.
  pose proof (Z.mod_pos_bound offset 4 ltac:(lia)) as Hpre.
  pose proof (lengthReal_no_wrap offset length ltac:(lia) Hfit) as HL.
  destruct (round_up_4_bounds (length + offset mod 4)) as [Hb Hm].
  pose proof (locationReal_aligned offset Hoff) as Hloc.
  pose proof (Z.div_mod offset 4 ltac:(lia)) as Hdm.
  unfold NrfFstorageBackend.writeData.
  destruct (Z.eqb_spec length 0); [lia|].
  rewrite nrf_readData_as_fs.
  rewrite HL, Hloc, preLength_eq.
  set (R := round_up_4 (length + offset mod 4)) in *.
  pose proof (Z.div_mod R 4 ltac:(lia)) as HR.
  assert (HRmod : (4 * (offset / 4)) mod 4 = 0).
  { rewrite Z.mul_comm. apply Z.mod_mul. lia. }
  rewrite readData_inside; [| unfold is_uint32 in *; lia | lia | lia].
  rewrite bind_returns.
  rewrite check_empty_inside; [| lia | rewrite bytes_at_length; lia].
  rewrite bind_returns.
  rewrite bytes_at_slice by lia.
  replace (4 * (offset / 4) + Z.of_nat (Z.to_nat (offset mod 4))) with offset by lia.
  destruct (forallb _ _) eqn:Hall; cbn [negb]; [|reflexivity].
  exfalso.
  pose proof (proj1 (forallb_bytes_erased _ _ _ _) Hall) as Hbytes.
  cbn [FsBackend.flash Sample.fs_storage FsBackend.p_start_addr] in Hbytes.
  set (q := (offset + 3) / 4).
  pose proof (Z.div_mod (offset + 3) 4 ltac:(lia)) as Hq.
  pose proof (Z.mod_pos_bound (offset + 3) 4 ltac:(lia)) as Hqr.
  fold q in Hq.
  pose proof (Hbytes (4 * q) ltac:(lia)) as H1.
  pose proof (Hbytes (4 * q + 4) ltac:(lia)) as H2.
  unfold FlashMedium.byte_at in H1, H2. rewrite shiftr_2 in H1, H2.
  replace (4 * q + 4) with ((q + 1) * 4) in H2 by lia.
  replace (4 * q) with (q * 4) in H1 by lia.
  rewrite Z.div_mul, Z.mod_mul in H1, H2 by lia.
  rewrite byte_of_word_uint32_0 in H1, H2.
  set (x := NrfFstorageBackend.start_addr nrfFstorage + q) in *.
  replace (NrfFstorageBackend.start_addr nrfFstorage + (q + 1)) with (x + 1) in H2
    by (subst x; lia).
  pose proof (Z.div_mod x 256 ltac:(lia)) as Hx.
  pose proof (Z.div_mod (x + 1) 256 ltac:(lia)) as Hx1.
  lia.
Qed.

Lemma nrf_writeData_8_bytes_refused_witness :
  NrfFstorageBackend.writeData Sample.nrfFstorage
    (Sample.nrf_platform NrfFstorageBackend.NRF_SUCCESS NrfFstorageBackend.NRF_SUCCESS)
    0 Sample.nrf_storage 0 Sample.writeData16 16
  = Returns (false, Sample.nrf_storage).
Proof.
  apply (nrf_writeData_8_bytes_refused Sample.nrfFstorage
           (Sample.nrf_platform NrfFstorageBackend.NRF_SUCCESS NrfFstorageBackend.NRF_SUCCESS)
           0 Sample.nrf_storage 0 Sample.writeData16 16).
  - u32.
  - lia.
  - vm_compute. discriminate.
Defined.

(** [writeData] of src/unnamed/part_000 inside the 16-bit range, its loops
    run: the bytes checked are those of the numbers [readData] delivers. *)
Lemma nrf_writeData_inside (nrfFstorage : NrfFstorageBackend.nrf_fstorage_t)
      (P : NrfFstorageBackend.platform) (fuel : nat)
      (st : NrfFstorageBackend.storage) (off : Z) (buffer : list Z) (len8 : Z) :
  is_uint32 off -> 0 < len8 -> len8 + off mod 4 <= 65532 ->
  (Z.to_nat len8 <= length buffer)%nat ->
  NrfFstorageBackend.writeData nrfFstorage P fuel st off buffer len8
  = if forallb (fun b => b =? 255)
               (FlashMedium.bytes_at uint32_t (NrfFstorageBackend.start_addr nrfFstorage)
                                     off (Z.to_nat len8))
    then
      let lenR := round_up_4 (len8 + off mod 4) in
      let buf32 := write_words off buffer len8 in
      let dest := uint32_t (NrfFstorageBackend.start_addr nrfFstorage + off / 4) in
      let st1 := NrfFstorageBackend.submit (NrfFstorageBackend.set_write_flag st 1)
                   (Store dest buf32 (lenR / 4)) in
      if negb (NrfFstorageBackend.nrf_success
                 (NrfFstorageBackend.nrf_fstorage_write P dest (lenR / 4)))
      then Returns (false, st1)
      else
        let st2 := NrfFstorageBackend.fstorage_evt_handler st1
                     {| NrfFstorageBackend.result := NrfFstorageBackend.write_result P;
                        NrfFstorageBackend.id :=
                          NrfFstorageBackend.NRF_FSTORAGE_EVT_WRITE_RESULT |} in
        _ <- busy_wait fuel (NrfFstorageBackend.fs_writeData_callback_flag st2) ;;
        Returns (true, st2)
    else Returns (false, st).
Proof.
  intros Hoff Hlen Hfit Hbuf.
  pose proof (Z.mod_pos_bound off 4 ltac:(lia)) as Hpre.
  pose proof (lengthReal_no_wrap off len8 ltac:(lia) Hfit) as HL.
  destruct (round_up_4_bounds (len8 + off mod 4)) as [Hb Hm].
  pose proof (locationReal_aligned off Hoff) as Hloc.
  pose proof (Z.div_mod off 4 ltac:(lia)) as Hdm.
  unfold NrfFstorageBackend.writeData.
  destruct (Z.eqb_spec len8 0); [lia|].
  rewrite nrf_readData_as_fs.
  rewrite HL, Hloc, preLength_eq.
  set (R := round_up_4 (len8 + off mod 4)) in *.
  pose proof (Z.div_mod R 4 ltac:(lia)) as HR.
  assert (HRmod : (4 * (off / 4)) mod 4 = 0).
  { rewrite Z.mul_comm. apply Z.mod_mul. lia. }
  rewrite readData_inside; [| unfold is_uint32 in *; lia | lia | lia].
  rewrite bind_returns.
  rewrite check_empty_inside; [| lia | rewrite bytes_at_length; lia].
  rewrite bind_returns.
  rewrite bytes_at_slice by lia.
  replace (4 * (off / 4) + Z.of_nat (Z.to_nat (off mod 4))) with off by lia.
  cbn [FsBackend.flash Sample.fs_storage FsBackend.p_start_addr].
  destruct (forallb _ _); cbn [negb]; [|reflexivity].
  rewrite assemble_inside; [| lia | lia | lia | lia | rewrite bytes_at_length; reflexivity].
  rewrite bind_returns.
  unfold conv8to32. cbn [negb].
  rewrite !shiftr_2.
  replace (4 * (off / 4) / 4) with (off / 4) by (rewrite Z.mul_comm, Z.div_mul; lia).
  reflexivity.
Qed.

(** X11: [writeData] of src/unnamed/part_000, whose flags are volatile, on a
    request that passes its check for empty bytes: when the medium accepts the
    write and the completion event carries a failure, [fstorage_evt_handler]
    leaves [fs_writeData_callback_flag] at 1 and the call polls it whatever
    the fuel. *)
Lemma nrf_writeData_completion_failure (nrfFstorage : NrfFstorageBackend.nrf_fstorage_t)
      (P : NrfFstorageBackend.platform) (fuel : nat)
      (st : NrfFstorageBackend.storage) (offset : Z) (data : list Z) (length : Z) :
  is_uint32 offset -> 0 < length -> length + offset mod 4 <= 65532 ->
  List.length data = Z.to_nat length ->
  (forall b, offset <= b < offset + length ->
             byte_of_word (uint32_t (NrfFstorageBackend.start_addr nrfFstorage + b / 4))
                          (b mod 4) = 255) ->
  NrfFstorageBackend.nrf_success
    (NrfFstorageBackend.nrf_fstorage_write P
       (uint32_t (NrfFstorageBackend.start_addr nrfFstorage + offset / 4))
       (round_up_4 (length + offset mod 4) / 4)) = true ->
  NrfFstorageBackend.nrf_success (NrfFstorageBackend.write_result P) = false ->
  NrfFstorageBackend.writeData nrfFstorage P fuel st offset data length = Spinning.
Proof.
  intros Hoff Hlen Hfit Hdata Hempty Haccept Hfail.
  rewrite nrf_writeData_inside by (assumption || lia).
  assert (Hall : forallb (fun b => b =? 255)
                   (FlashMedium.bytes_at uint32_t
                      (NrfFstorageBackend.start_addr nrfFstorage) offset
                      (Z.to_nat length)) = true).
  { apply forallb_bytes_erased. intros b Hb.
    unfold FlashMedium.byte_at. rewrite shiftr_2. apply Hempty. lia. }
  rewrite Hall. cbv zeta. rewrite Haccept. cbn [negb].
  unfold NrfFstorageBackend.fstorage_evt_handler.
  cbn [NrfFstorageBackend.result]. rewrite Hfail. cbn [negb].
  cbn [NrfFstorageBackend.fs_writeData_callback_flag NrfFstorageBackend.set_write_flag
       NrfFstorageBackend.submit].
  rewrite busy_wait_spins. reflexivity.
Qed.

Lemma nrf_writeData_completion_failure_witness :
  NrfFstorageBackend.writeData Sample.nrfFstorage
    (Sample.nrf_platform (NrfFstorageBackend.NRF_ERROR 13) NrfFstorageBackend.NRF_SUCCESS)
    5 Sample.nrf_storage 1020 [15] 1 = Spinning.
Proof.
  apply (nrf_writeData_completion_failure Sample.nrfFstorage
           (Sample.nrf_platform (NrfFstorageBackend.NRF_ERROR 13)
                                NrfFstorageBackend.NRF_SUCCESS)
           5 Sample.nrf_storage 1020 [15] 1).
  - u32.
  - lia.
  - vm_compute. discriminate.
  - reflexivity.
  - intros b Hb. assert (b = 1020) as -> by lia. reflexivity.
  - reflexivity.
  - reflexivity.
Defined.

(** X21: What a caller sees of [erasePage] of part_000: [false] when the medium
    refuses the request, [true] when it accepts and the erase event carries
    success, no return when the event carries a failure; the request is handed
    to the medium in every case. *)
Theorem nrf_erasePage_seen (PAGE_SIZE_WORDS : Z)
        (nrfFstorage : NrfFstorageBackend.nrf_fstorage_t)
        (P : NrfFstorageBackend.platform) (fuel : nat)
        (st : NrfFstorageBackend.storage) (page numPages : Z) :
  nrf_seen (NrfFstorageBackend.erasePage PAGE_SIZE_WORDS nrfFstorage P fuel st page numPages)
  = let page_addr := uint32_t (NrfFstorageBackend.start_addr nrfFstorage
                               + PAGE_SIZE_WORDS * page) in
    if NrfFstorageBackend.nrf_success
         (NrfFstorageBackend.nrf_fstorage_erase P page_addr numPages)
    then if NrfFstorageBackend.nrf_success (NrfFstorageBackend.erase_result P)
         then Returns (true, NrfFstorageBackend.submitted st ++ [Erase page_addr numPages])
         else Spinning
    else Returns (false, NrfFstorageBackend.submitted st ++ [Erase page_addr numPages]).
Proof.
  cbv zeta. unfold NrfFstorageBackend.erasePage.
  destruct (NrfFstorageBackend.nrf_success (NrfFstorageBackend.nrf_fstorage_erase P _ _));
    cbn [negb]; [|reflexivity].
  unfold NrfFstorageBackend.fstorage_evt_handler.
  cbn [NrfFstorageBackend.result NrfFstorageBackend.id].
  destruct (NrfFstorageBackend.nrf_success (NrfFstorageBackend.erase_result P)); cbn [negb].
  - cbn [NrfFstorageBackend.fs_erasePage_callback_flag NrfFstorageBackend.set_erase_flag].
    rewrite busy_wait_cleared. reflexivity.
  - cbn [NrfFstorageBackend.fs_erasePage_callback_flag NrfFstorageBackend.set_erase_flag
         NrfFstorageBackend.submit].
    rewrite busy_wait_spins. reflexivity.
Qed.
